(** * Tabular Data API: a shallow embedding of [api/index.py]

    The service keeps a process-wide dictionary [data_store] from dataset
    names to pandas data frames and exposes list / create / get / delete /
    filter / aggregate handlers over it.  These handlers are translated one
    to one (the statistics endpoint and the static mount are left out); the
    parts of Python and pandas they call are modelled in the modules [Py]
    and [Pd] below.

    Conventions of the model:
    - a JSON cell ([Any] in the request models) is a scalar: null, boolean,
      integer, float or string; nested arrays and objects are left out;
    - strings are sequences of bytes (UTF-8); byte order agrees with code
      point order and byte-wise substring search with code point search;
      where Python looks at the code points themselves ([float] on a
      text, the wildcard of a pattern) the bytes are decoded;
    - a Python [float] is a binary64 number, Rocq's primitive [float];
    - pandas follows the 1.x/2.x behaviour where text columns have dtype
      [object];
    - a handful of library kernels whose exact result depends on the
      installed numpy/bottleneck build or on the full regular expression
      engine are parameters, collected in the class [Kernels]. *)

From Stdlib Require Import ZArith Lia Bool List Ascii String Floats.
From Stdlib Require Import Permutation.
From Stdlib Require OrderedTypeEx.
From stdpp Require Import base option list gmap strings pretty.

Local Open Scope string_scope.
Local Open Scope list_scope.
Local Open Scope Z_scope.

(** ** Python scalars, exceptions and builtins *)
Module Py.

(** A JSON scalar as Python holds it after parsing. *)
Inductive value : Type :=
| PyNone
| PyBool (b : bool)
| PyInt (z : Z)
| PyFloat (f : float)
| PyStr (s : string).

(** Exceptions.  Built-in exceptions carry their message template and the
    objects interpolated in it; [HTTPException] is FastAPI's.  Its detail
    is either a literal text or [str(e)] of a caught exception, kept
    symbolic. *)
Inductive exn : Type :=
| TypeError (msg : string) (args : list value)
| ValueError (msg : string) (args : list value)
| OverflowError (msg : string)
| KeyError (key : string)
| NotImplementedError (what : string)
| re_error (pattern : string)
| HTTPException (status_code : Z) (detail : message)
with message : Type :=
| Text (s : string)
| str_exn (e : exn).

(** [A] or a raised exception. *)
Definition res (A : Type) : Type := exn + A.

Definition res_bind {A B} (r : res A) (k : A -> res B) : res B :=
  match r with
  | inl e => inl e
  | inr a => k a
  end.

Fixpoint res_map {A B} (f : A -> res B) (l : list A) : res (list B) :=
  match l with
  | [] => inr []
  | a :: l' =>
      res_bind (f a) (fun b => res_bind (res_map f l') (fun bs => inr (b :: bs)))
  end.

(** *** Floats *)

(** Nearest binary64 number to an integer, ties to even (what CPython's
    [PyLong_AsDouble] computes when the result is finite). *)
Definition float_of_Z (z : Z) : float :=
  SF2Prim (binary_normalize prec emax z 0 false).

(** [PyLong_AsDouble] raises [OverflowError] exactly when the rounded
    value leaves the binary64 range. *)
Definition int_overflows (z : Z) : bool := is_infinity (float_of_Z z).

Definition int_to_double (z : Z) : res float :=
  if int_overflows z then inl (OverflowError "int too large to convert to float")
  else inr (float_of_Z z).

(** Nearest binary64 number to [m * 10 ^ e], for [0 <= m] (correctly
    rounded, as David Gay's [strtod] in CPython is). *)
Definition float_of_decimal (m e : Z) : float :=
  if 0 <=? e then float_of_Z (m * 10 ^ e)
  else match m with
       | Zpos p =>
           SF2Prim (SFdiv prec emax (S754_finite false p 0)
                      (S754_finite false (Z.to_pos (10 ^ (- e))) 0))
       | _ => zero
       end.

(** Exact comparison of a float with an integer: [Some c] is the
    comparison of the real value of [f] with [z], [None] for NaN. *)
Definition float_compare_Z (f : float) (z : Z) : option comparison :=
  match Prim2SF f with
  | S754_nan => None
  | S754_infinity s => Some (if s then Lt else Gt)
  | S754_zero _ => Some (0 ?= z)
  | S754_finite s m e =>
      let n := if s then Z.neg m else Z.pos m in
      Some (if 0 <=? e then (n * 2 ^ e ?= z) else (n ?= z * 2 ^ (- e)))
  end.

Definition float_compare (f g : float) : option comparison :=
  match PrimFloat.compare f g with
  | FEq => Some Eq
  | FLt => Some Lt
  | FGt => Some Gt
  | FNotComparable => None
  end.

Definition float_eq_Z (f : float) (z : Z) : bool :=
  match float_compare_Z f z with
  | Some Eq => true
  | _ => false
  end.

(** An integer is exactly representable when the double nearest to it
    has the same value. *)
Definition float_exact (z : Z) : bool := float_eq_Z (float_of_Z z) z.

(** *** Text as code points *)

Definition byte (c : ascii) : Z := Z.of_N (N_of_ascii c).

Definition is_continuation (c : ascii) : bool :=
  (128 <=? byte c) && (byte c <? 192).

Definition REPLACEMENT : Z := 0xFFFD.

(** The code points of a UTF-8 text.  The text of a [str] is well formed;
    a sequence that is not decodes to U+FFFD. *)
Fixpoint decode_utf8 (l : list ascii) : list Z :=
  match l with
  | [] => []
  | b0 :: l1 =>
      if byte b0 <? 128 then byte b0 :: decode_utf8 l1
      else if byte b0 <? 192 then REPLACEMENT :: decode_utf8 l1
      else if byte b0 <? 224 then
        match l1 with
        | b1 :: l2 =>
            (if is_continuation b1
             then (byte b0 - 192) * 64 + (byte b1 - 128)
             else REPLACEMENT) :: decode_utf8 l2
        | _ => [REPLACEMENT]
        end
      else if byte b0 <? 240 then
        match l1 with
        | b1 :: b2 :: l3 =>
            (if is_continuation b1 && is_continuation b2
             then (byte b0 - 224) * 4096 + (byte b1 - 128) * 64 + (byte b2 - 128)
             else REPLACEMENT) :: decode_utf8 l3
        | _ => [REPLACEMENT]
        end
      else
        match l1 with
        | b1 :: b2 :: b3 :: l4 =>
            (if (byte b0 <? 248) && is_continuation b1 && is_continuation b2
                && is_continuation b3
             then (byte b0 - 240) * 262144 + (byte b1 - 128) * 4096
                  + (byte b2 - 128) * 64 + (byte b3 - 128)
             else REPLACEMENT) :: decode_utf8 l4
        | _ => [REPLACEMENT]
        end
  end.

(** [Py_UNICODE_ISSPACE] above the ASCII range. *)
Definition is_unicode_space (ch : Z) : bool :=
  (ch =? 0x85) || (ch =? 0xA0) || (ch =? 0x1680)
  || (0x2000 <=? ch) && (ch <=? 0x200A)
  || (ch =? 0x2028) || (ch =? 0x2029) || (ch =? 0x202F) || (ch =? 0x205F)
  || (ch =? 0x3000).

(** The digit zero of every run of ten decimal digits (general category
    Nd) of the Unicode character database, version 15. *)
Definition decimal_zeros : list Z :=
  [ 0x0030; 0x0660; 0x06F0; 0x07C0; 0x0966; 0x09E6; 0x0A66; 0x0AE6;
    0x0B66; 0x0BE6; 0x0C66; 0x0CE6; 0x0D66; 0x0DE6; 0x0E50; 0x0ED0;
    0x0F20; 0x1040; 0x1090; 0x17E0; 0x1810; 0x1946; 0x19D0; 0x1A80;
    0x1A90; 0x1B50; 0x1BB0; 0x1C40; 0x1C50; 0xA620; 0xA8D0; 0xA900;
    0xA9D0; 0xA9F0; 0xAA50; 0xABF0; 0xFF10; 0x104A0; 0x10D30; 0x11066;
    0x110F0; 0x11136; 0x111D0; 0x112F0; 0x11450; 0x114D0; 0x11650;
    0x116C0; 0x11730; 0x118E0; 0x11950; 0x11C50; 0x11D50; 0x11DA0;
    0x11F50; 0x16A60; 0x16AC0; 0x16B50; 0x1D7CE; 0x1D7D8; 0x1D7E2;
    0x1D7EC; 0x1D7F6; 0x1E140; 0x1E2F0; 0x1E4F0; 0x1E950; 0x1FBF0 ].

(** [Py_UNICODE_TODECIMAL]: the value of a decimal digit. *)
Definition to_decimal (ch : Z) : option Z :=
  match List.find (fun z => (z <=? ch) && (ch <? z + 10)) decimal_zeros with
  | Some z => Some (ch - z)
  | None => None
  end.

Definition ascii_of_Z (z : Z) : ascii := ascii_of_N (Z.to_N z).

(** [_PyUnicode_TransformDecimalAndSpaceToASCII] on a text that is not
    ASCII: spaces become " ", decimal digits their ASCII digit, and the
    text is cut at the first other character, replaced by "?". *)
Fixpoint transform (chs : list Z) : list ascii :=
  match chs with
  | [] => []
  | ch :: chs' =>
      if ch <? 127 then ascii_of_Z ch :: transform chs'
      else if is_unicode_space ch then " "%char :: transform chs'
      else match to_decimal ch with
           | Some d => ascii_of_Z (48 + d) :: transform chs'
           | None => ["?"%char]
           end
  end.

(** An ASCII text is taken as it is. *)
Definition to_ascii (s : string) : list ascii :=
  let bytes := list_ascii_of_string s in
  if forallb (fun b => byte b <? 128) bytes then bytes
  else transform (decode_utf8 bytes).

(** *** [float(str)] *)

(** [Py_ISSPACE]: tab, line feed, vertical tab, form feed, carriage
    return and space. *)
Definition is_space (c : ascii) : bool :=
  let n := N_of_ascii c in
  ((9 <=? n) && (n <=? 13) || (n =? 32))%N.

Definition is_digit (c : ascii) : bool :=
  let n := N_of_ascii c in ((48 <=? n) && (n <=? 57))%N.

Definition digit_value (c : ascii) : Z := Z.of_N (N_of_ascii c) - 48.

Definition lower (c : ascii) : ascii :=
  let n := N_of_ascii c in
  if ((65 <=? n) && (n <=? 90))%N then ascii_of_N (n + 32) else c.

Fixpoint lstrip (l : list ascii) : list ascii :=
  match l with
  | c :: l' => if is_space c then lstrip l' else l
  | [] => []
  end.

Definition strip (l : list ascii) : list ascii :=
  rev (lstrip (rev (lstrip l))).

(** [digit (["_"] digit)*], read after a first digit: the digits read
    and what is left. *)
Fixpoint digits_tail (l : list ascii) : list ascii * list ascii :=
  match l with
  | c :: l' =>
      if is_digit c then
        let (ds, r) := digits_tail l' in (c :: ds, r)
      else if Ascii.eqb c "_" then
        match l' with
        | d :: l'' =>
            if is_digit d then
              let (ds, r) := digits_tail l'' in (d :: ds, r)
            else ([], l)
        | [] => ([], l)
        end
      else ([], l)
  | [] => ([], [])
  end.

(** An optional [digitpart]: no digit read when [l] does not start with
    one. *)
Definition digitpart (l : list ascii) : list ascii * list ascii :=
  match l with
  | c :: l' =>
      if is_digit c then let (ds, r) := digits_tail l' in (c :: ds, r)
      else ([], l)
  | [] => ([], [])
  end.

Definition digits_to_Z (ds : list ascii) : Z :=
  fold_left (fun acc c => 10 * acc + digit_value c) ds 0.

Definition take_sign (l : list ascii) : bool * list ascii :=
  match l with
  | c :: l' =>
      if Ascii.eqb c "-" then (true, l')
      else if Ascii.eqb c "+" then (false, l')
      else (false, l)
  | [] => (false, [])
  end.

(** [exponent ::= ("e" | "E") [sign] digitpart], or nothing; then the end
    of the text. *)
Definition parse_exponent (l : list ascii) : option Z :=
  match l with
  | [] => Some 0
  | c :: l' =>
      if Ascii.eqb (lower c) "e" then
        let (neg, l1) := take_sign l' in
        match digitpart l1 with
        | ((_ :: _) as ds, []) =>
            Some (if neg then - digits_to_Z ds else digits_to_Z ds)
        | _ => None
        end
      else None
  end.

(** [floatnumber]: mantissa digits and decimal exponent. *)
Definition parse_floatnumber (l : list ascii) : option (Z * Z) :=
  let (ip, r1) := digitpart l in
  let '(fp, r2) :=
    match r1 with
    | c :: r1' => if Ascii.eqb c "." then digitpart r1' else ([], r1)
    | [] => ([], [])
    end in
  match ip ++ fp with
  | [] => None
  | ds =>
      match parse_exponent r2 with
      | Some e => Some (digits_to_Z ds, e - Z.of_nat (length fp))
      | None => None
      end
  end.

Definition parse_float (s : string) : option float :=
  let (neg, body) := take_sign (strip (to_ascii s)) in
  let word := string_of_list_ascii (map lower body) in
  let magnitude :=
    if String.eqb word "inf" || String.eqb word "infinity" then Some infinity
    else if String.eqb word "nan" then Some nan
    else match parse_floatnumber body with
         | Some (m, e) => Some (float_of_decimal m e)
         | None => None
         end in
  match magnitude with
  | Some f => Some (if neg then (- f)%float else f)
  | None => None
  end.

(** The builtin [float(x)]. *)
Definition float_ (v : value) : res float :=
  match v with
  | PyNone =>
      inl (TypeError "float() argument must be a string or a real number" [v])
  | PyBool b => inr (if b then one else zero)
  | PyInt z => int_to_double z
  | PyFloat f => inr f
  | PyStr s =>
      match parse_float s with
      | Some f => inr f
      | None => inl (ValueError "could not convert string to float" [v])
      end
  end.

(** *** Comparisons *)

(** Python numbers: [bool] is a subclass of [int]. *)
Definition as_number (v : value) : option (Z + float) :=
  match v with
  | PyBool b => Some (inl (if b then 1 else 0))
  | PyInt z => Some (inl z)
  | PyFloat f => Some (inr f)
  | _ => None
  end.

(** Numbers compare by their exact real value; [None] when a NaN is
    involved. *)
Definition num_compare (a b : Z + float) : option comparison :=
  match a, b with
  | inl x, inl y => Some (x ?= y)
  | inl x, inr g => option_map CompOpp (float_compare_Z g x)
  | inr f, inl y => float_compare_Z f y
  | inr f, inr g => float_compare f g
  end.

Definition num_eq (a b : Z + float) : bool :=
  match a, b with
  | inl x, inl y => x =? y
  | inl x, inr g => float_eq_Z g x
  | inr f, inl y => float_eq_Z f y
  | inr f, inr g => PrimFloat.eqb f g
  end.

(** [a == b]; never raises on scalars. *)
Definition py_eq (a b : value) : bool :=
  match a, b with
  | PyNone, PyNone => true
  | PyStr s, PyStr t => String.eqb s t
  | _, _ =>
      match as_number a, as_number b with
      | Some x, Some y => num_eq x y
      | _, _ => false
      end
  end.

(** A row record: a Python [dict] in insertion order, keys pairwise
    distinct. *)
Definition record : Type := list (string * value).

Fixpoint dict_get (k : string) (d : record) : option value :=
  match d with
  | [] => None
  | (k', v) :: d' => if String.eqb k k' then Some v else dict_get k d'
  end.

(** [a == b] on dicts: as many keys, and every key of [a] is in [b] with
    an equal value. *)
Definition dict_eq (a b : record) : bool :=
  Nat.eqb (length a) (length b) &&
  forallb (fun kv =>
             match dict_get (fst kv) b with
             | Some v => py_eq (snd kv) v
             | None => false
             end) a.

(** [a == b] on lists of dicts: as long, and equal position by
    position. *)
Definition records_eq (a b : list record) : bool :=
  Nat.eqb (length a) (length b) &&
  forallb (fun ab => dict_eq (fst ab) (snd ab)) (combine a b).

Inductive cmp_op : Type := Py_LT | Py_LE | Py_GT | Py_GE.

Definition cmp_symbol (op : cmp_op) : string :=
  match op with
  | Py_LT => "<"
  | Py_LE => "<="
  | Py_GT => ">"
  | Py_GE => ">="
  end.

Definition cmp_holds (op : cmp_op) (c : comparison) : bool :=
  match op, c with
  | Py_LT, Lt | Py_LE, Lt | Py_LE, Eq
  | Py_GT, Gt | Py_GE, Gt | Py_GE, Eq => true
  | _, _ => false
  end.

(** [a < b], [a <= b], [a > b], [a >= b]: defined between numbers and
    between strings, [TypeError] otherwise. *)
Definition rich_compare (op : cmp_op) (a b : value) : res bool :=
  match a, b with
  | PyStr s, PyStr t => inr (cmp_holds op (String.compare s t))
  | _, _ =>
      match as_number a, as_number b with
      | Some x, Some y =>
          inr (match num_compare x y with
               | Some c => cmp_holds op c
               | None => false
               end)
      | _, _ =>
          inl (TypeError (cmp_symbol op +:+ " not supported between instances")
                 [a; b])
      end
  end.

(** Python truthiness of an [Optional[int]]. *)
Definition truthy (o : option Z) : bool :=
  match o with
  | Some n => negb (n =? 0)
  | None => false
  end.

(** [needle in haystack] for strings. *)
Fixpoint contains (needle haystack : string) : bool :=
  String.prefix needle haystack ||
  match haystack with
  | EmptyString => false
  | String _ rest => contains needle rest
  end.

End Py.

(** ** The part of pandas the handlers call *)
Module Pd.
Import Py.

Inductive dtype : Type := dt_bool | dt_int64 | dt_uint64 | dt_float64 | dt_object.

Definition dtype_str (d : dtype) : string :=
  match d with
  | dt_bool => "bool"
  | dt_int64 => "int64"
  | dt_uint64 => "uint64"
  | dt_float64 => "float64"
  | dt_object => "object"
  end.

Inductive reduction : Type := r_sum | r_mean | r_median.

Inductive comparison_op : Type := op_eq | op_gt | op_lt.

(** Library kernels taken as parameters.  Each may raise.
    - [float_repr]: [repr] of a finite float (shortest digits that read
      back to the same number);
    - [re_compile]: [re.compile(pat)] for a pattern holding a
      metacharacter; the function returned is [pat.search(x) is not None];
    - [f64_add_reduce]: [numpy.add.reduce] over a float64 array (pairwise
      summation, so the rounding depends on the build);
    - [f64_median]: [numpy.nanmedian] (or bottleneck's) on a non-empty
      array without NaN;
    - [object_reduce]: sum, mean and median over an [object] array;
    - [numeric_compare]: element-wise comparison of a numeric array (given
      by its dtype and boxed elements) with a numeric scalar, under numpy's
      type promotion. *)
Class Kernels : Type := {
  float_repr : float -> res string;
  re_compile : string -> res (string -> bool);
  f64_add_reduce : list float -> res float;
  f64_median : list float -> res float;
  object_reduce : reduction -> list value -> res value;
  numeric_compare : comparison_op -> dtype -> list value -> value -> res (list bool)
}.

(** Kernels that refuse every call.  They let the model run on tables and
    requests that never reach a kernel. *)
Definition no_kernels : Kernels := {|
  float_repr := fun _ => inl (NotImplementedError "float_repr");
  re_compile := fun _ => inl (NotImplementedError "re_compile");
  f64_add_reduce := fun _ => inl (NotImplementedError "f64_add_reduce");
  f64_median := fun _ => inl (NotImplementedError "f64_median");
  object_reduce := fun _ _ => inl (NotImplementedError "object_reduce");
  numeric_compare := fun _ _ _ _ => inl (NotImplementedError "numeric_compare")
|}.

(** A regular expression kernel for the patterns made of ordinary
    characters and of the wildcard [.], which matches any character but a
    newline; it refuses every other pattern. *)
Fixpoint match_here (pat s : list Z) : bool :=
  match pat, s with
  | [], _ => true
  | _ :: _, [] => false
  | p :: pat', c :: s' =>
      (if p =? 46 then negb (c =? 10) else p =? c)
      && match_here pat' s'
  end.

Fixpoint search (pat s : list Z) : bool :=
  match_here pat s ||
  match s with
  | [] => false
  | _ :: s' => search pat s'
  end.

Definition metacharacters : list ascii :=
  list_ascii_of_string ".^$*+?{}[]\|()".

Definition is_meta (c : ascii) : bool := existsb (Ascii.eqb c) metacharacters.

Definition wildcard_compile (pat : string) : res (string -> bool) :=
  let p := list_ascii_of_string pat in
  if forallb (fun c => Ascii.eqb c "." || negb (is_meta c)) p
  then inr (fun s => search (decode_utf8 p)
                        (decode_utf8 (list_ascii_of_string s)))
  else inl (NotImplementedError "re_compile").

Definition wildcard_kernels : Kernels := {|
  float_repr := fun _ => inl (NotImplementedError "float_repr");
  re_compile := wildcard_compile;
  f64_add_reduce := fun _ => inl (NotImplementedError "f64_add_reduce");
  f64_median := fun _ => inl (NotImplementedError "f64_median");
  object_reduce := fun _ _ => inl (NotImplementedError "object_reduce");
  numeric_compare := fun _ _ _ _ => inl (NotImplementedError "numeric_compare")
|}.

Section WithKernels.
Context {K : Kernels}.

(** The builtin [str(x)] on scalars. *)
Definition str_ (v : value) : res string :=
  match v with
  | PyNone => inr "None"
  | PyBool b => inr (if b then "True" else "False")
  | PyInt z => inr (pretty z)
  | PyFloat f =>
      if is_nan f then inr "nan"
      else if is_infinity f then inr (if get_sign f then "-inf" else "inf")
      else float_repr f
  | PyStr s => inr s
  end.

(** *** Arrays and frames *)

Inductive array : Type :=
| BoolArray (l : list bool)
| Int64Array (l : list Z)
| UInt64Array (l : list Z)
| Float64Array (l : list float)
| ObjectArray (l : list value).

Definition array_dtype (a : array) : dtype :=
  match a with
  | BoolArray _ => dt_bool
  | Int64Array _ => dt_int64
  | UInt64Array _ => dt_uint64
  | Float64Array _ => dt_float64
  | ObjectArray _ => dt_object
  end.

(** The elements as Python scalars ([tolist], [maybe_box_native]). *)
Definition tolist (a : array) : list value :=
  match a with
  | BoolArray l => map PyBool l
  | Int64Array l => map PyInt l
  | UInt64Array l => map PyInt l
  | Float64Array l => map PyFloat l
  | ObjectArray l => l
  end.

(** Rows kept by a boolean mask. *)
Fixpoint compress {A} (mask : list bool) (l : list A) : list A :=
  match mask, l with
  | b :: mask', x :: l' => if b then x :: compress mask' l' else compress mask' l'
  | _, _ => []
  end.

Definition array_map_rows (f : forall A, list A -> list A) (a : array) : array :=
  match a with
  | BoolArray l => BoolArray (f _ l)
  | Int64Array l => Int64Array (f _ l)
  | UInt64Array l => UInt64Array (f _ l)
  | Float64Array l => Float64Array (f _ l)
  | ObjectArray l => ObjectArray (f _ l)
  end.

(** A frame: the length of its index and its columns in order, each a
    name and an array of that length. *)
Record DataFrame : Type := {
  nrows : nat;
  cols : list (string * array)
}.

Definition len (df : DataFrame) : Z := Z.of_nat (nrows df).
Definition columns (df : DataFrame) : list string := map fst (cols df).
Definition shape (df : DataFrame) : Z * Z :=
  (Z.of_nat (nrows df), Z.of_nat (length (cols df))).
Definition dtypes (df : DataFrame) : list (string * dtype) :=
  map (fun c => (fst c, array_dtype (snd c))) (cols df).

(** [col in df.columns] and [df[col]]. *)
Definition has_column (col : string) (df : DataFrame) : bool :=
  existsb (String.eqb col) (columns df).

Fixpoint getitem (col : string) (cs : list (string * array)) : res array :=
  match cs with
  | [] => inl (KeyError col)
  | (k, a) :: cs' => if String.eqb col k then inr a else getitem col cs'
  end.

(** *** Construction from a list of records *)

(** [lib.fast_unique_multiple_list_gen(..., sort=False)]: the keys of all
    rows in order of first appearance. *)
Definition add_unique (uniques : list string) (k : string) : list string :=
  if existsb (String.eqb k) uniques then uniques else uniques ++ [k].

Definition fast_unique (data : list record) : list string :=
  fold_left (fun uniques row => fold_left add_unique (map fst row) uniques)
    data [].

(** [lib.dicts_to_array]: one object column per key, NaN where a row has
    no such key. *)
Definition dicts_to_array (data : list record) (k : string) : list value :=
  map (fun row => default (PyFloat nan) (dict_get k row)) data.

(** The flags of [lib.Seen] that scalars can set. *)
Record Seen : Type := {
  null_ : bool;
  nan_ : bool;
  bool_ : bool;
  int_ : bool;
  sint_ : bool;
  uint_ : bool;
  float_ : bool;
  object_ : bool
}.

Definition seen_nothing : Seen :=
  {| null_ := false; nan_ := false; bool_ := false; int_ := false;
     sint_ := false; uint_ := false; float_ := false; object_ := false |}.

Definition INT64_MIN : Z := - 2 ^ 63.
Definition INT64_MAX : Z := 2 ^ 63 - 1.
Definition UINT64_MAX : Z := 2 ^ 64 - 1.

Definition saw_int (s : Seen) (val : Z) : Seen :=
  {| null_ := null_ s; nan_ := nan_ s; bool_ := bool_ s; int_ := true;
     sint_ := sint_ s || ((INT64_MIN <=? val) && (val <? 0));
     uint_ := uint_ s || ((INT64_MAX <? val) && (val <=? UINT64_MAX));
     float_ := float_ s; object_ := object_ s |}.

(** The scanning loop of [lib.maybe_convert_objects].  A string, or an
    integer outside what int64 and uint64 can share, sets [object_] and
    leaves the loop; every integer met is first converted to a double,
    which raises when it is too large. *)
Fixpoint scan (s : Seen) (objects : list value) : res Seen :=
  match objects with
  | [] => inr s
  | val :: rest =>
      match val with
      | PyNone =>
          scan {| null_ := true; nan_ := nan_ s; bool_ := bool_ s;
                  int_ := int_ s; sint_ := sint_ s; uint_ := uint_ s;
                  float_ := float_ s; object_ := object_ s |} rest
      | PyFloat f =>
          if is_nan f then
            scan {| null_ := null_ s; nan_ := true; bool_ := bool_ s;
                    int_ := int_ s; sint_ := sint_ s; uint_ := uint_ s;
                    float_ := float_ s; object_ := object_ s |} rest
          else
            scan {| null_ := null_ s; nan_ := nan_ s; bool_ := bool_ s;
                    int_ := int_ s; sint_ := sint_ s; uint_ := uint_ s;
                    float_ := true; object_ := object_ s |} rest
      | PyBool _ =>
          scan {| null_ := null_ s; nan_ := nan_ s; bool_ := true;
                  int_ := int_ s; sint_ := sint_ s; uint_ := uint_ s;
                  float_ := float_ s; object_ := object_ s |} rest
      | PyInt z =>
          res_bind (int_to_double z) (fun _ =>
            if null_ s then
              scan {| null_ := null_ s; nan_ := nan_ s; bool_ := bool_ s;
                      int_ := true; sint_ := sint_ s; uint_ := uint_ s;
                      float_ := float_ s; object_ := object_ s |} rest
            else
              let s' := saw_int s z in
              if (uint_ s' && sint_ s') || (UINT64_MAX <? z) || (z <? INT64_MIN)
              then inr {| null_ := null_ s'; nan_ := nan_ s'; bool_ := bool_ s';
                          int_ := int_ s'; sint_ := sint_ s'; uint_ := uint_ s';
                          float_ := float_ s'; object_ := true |}
              else scan s' rest)
      | PyStr _ =>
          inr {| null_ := null_ s; nan_ := nan_ s; bool_ := bool_ s;
                 int_ := int_ s; sint_ := sint_ s; uint_ := uint_ s;
                 float_ := float_ s; object_ := true |}
      end
  end.

(** What the typed buffers of [maybe_convert_objects] hold for a value. *)
Definition as_bool (v : value) : bool :=
  match v with PyBool b => b | _ => false end.
Definition as_int (v : value) : Z :=
  match v with PyInt z => z | _ => 0 end.
Definition as_float (v : value) : float :=
  match v with
  | PyFloat f => f
  | PyInt z => float_of_Z z
  | _ => nan
  end.

(** The choice of the result after the scan. *)
Definition finish (s : Seen) (objects : list value) : array :=
  if object_ s then ObjectArray objects
  else if bool_ s then
    if null_ s || nan_ s || int_ s || float_ s then ObjectArray objects
    else BoolArray (map as_bool objects)
  else if null_ s || nan_ s then
    if float_ s || int_ s || nan_ s then Float64Array (map as_float objects)
    else ObjectArray objects
  else if float_ s then Float64Array (map as_float objects)
  else if int_ s then
    if uint_ s then UInt64Array (map as_int objects)
    else Int64Array (map as_int objects)
  else ObjectArray objects.

Definition maybe_convert_objects (objects : list value) : res array :=
  res_bind (scan seen_nothing objects) (fun s => inr (finish s objects)).

(** [pd.DataFrame(data)] for a list of dicts. *)
Definition DataFrame_ (data : list record) : res DataFrame :=
  res_bind
    (res_map (fun k =>
                res_bind (maybe_convert_objects (dicts_to_array data k))
                  (fun a => inr (k, a)))
       (fast_unique data))
    (fun cs => inr {| nrows := length data; cols := cs |}).

(** *** Row selection and export *)

(** The stop of the slice [[:n]] on [size] rows. *)
Definition slice_stop (n : Z) (size : nat) : nat :=
  if 0 <=? n then Nat.min (Z.to_nat n) size
  else Z.to_nat (Z.of_nat size + n).

(** [df.head(n)], that is [df.iloc[:n]]: the first [n] rows, or all but
    the last [-n] for a negative [n]. *)
Definition head (n : Z) (df : DataFrame) : DataFrame :=
  let k := slice_stop n (nrows df) in
  {| nrows := k;
     cols := map (fun c => (fst c, array_map_rows (fun A => firstn k) (snd c)))
               (cols df) |}.

(** [df[mask]] for a boolean mask with one entry per row. *)
Definition getitem_mask (mask : list bool) (df : DataFrame) : DataFrame :=
  {| nrows := length (compress mask (seq 0 (nrows df)));
     cols := map (fun c => (fst c, array_map_rows (fun A => compress mask) (snd c)))
               (cols df) |}.

(** [df.to_dict(orient="records")]: one dict per tuple of
    [itertuples(index=False)], which zips the columns, so a frame without
    columns gives no record at all. *)
Definition tuples (cs : list (string * array)) (n : nat) : list record :=
  map (fun i => map (fun c => (fst c, nth i (tolist (snd c)) PyNone)) cs)
    (seq 0 n).

Definition to_dict_records (df : DataFrame) : list record :=
  match cols df with
  | [] => []
  | _ :: _ => tuples (cols df) (nrows df)
  end.

(** *** Missing values *)

(** [pd.isna] on a scalar: [None] and NaN. *)
Definition isna (v : value) : bool :=
  match v with
  | PyNone => true
  | PyFloat f => is_nan f
  | _ => false
  end.

Definition notna (v : value) : bool := negb (isna v).

(** *** Comparison of a column with a scalar *)

(** [libops.scalar_compare]: an object array against a scalar that is not
    null; null elements compare false, [==] swallows [TypeError]. *)
Definition scalar_compare (op : comparison_op) (l : list value) (val : value)
  : res (list bool) :=
  res_map (fun x =>
             if isna x then inr false
             else match op with
                  | op_eq => inr (py_eq x val)
                  | op_gt => rich_compare Py_GT x val
                  | op_lt => rich_compare Py_LT x val
                  end) l.

(** [ops.comparison_op]: what [series == val], [series > val] and
    [series < val] compute. *)
Definition compare_scalar (op : comparison_op) (a : array) (val : value)
  : res (list bool) :=
  if isna val then inr (map (fun _ => false) (tolist a))
  else match a, val with
       | ObjectArray l, _ => scalar_compare op l val
       | _, PyStr _ =>
           match op with
           | op_eq => inr (map (fun _ => false) (tolist a))
           | _ => inl (TypeError "Invalid comparison between dtype and str"
                         [PyStr (dtype_str (array_dtype a)); val])
           end
       | _, _ => numeric_compare op (array_dtype a) (tolist a) val
       end.

(** *** [astype(str).str.contains] *)

(** [astype(str)]: every element through [str], the missing ones
    included. *)
Definition astype_str (a : array) : res (list string) :=
  res_map str_ (tolist a).

Definition is_literal (pat : string) : bool :=
  forallb (fun c => negb (is_meta c)) (list_ascii_of_string pat).

(** [series.str.contains(pat, na=False)] on strings: [regex=True] is the
    default, so [pat] is compiled once and searched in every element.  A
    pattern without metacharacter matches exactly where it occurs. *)
Definition str_contains (pat : string) (l : list string) : res (list bool) :=
  if is_literal pat then inr (map (contains pat) l)
  else res_bind (re_compile pat) (fun search => inr (map search l)).

(** *** Reductions of a column *)

Definition wrap_int64 (z : Z) : Z := (z + 2 ^ 63) mod 2 ^ 64 - 2 ^ 63.
Definition wrap_uint64 (z : Z) : Z := z mod 2 ^ 64.

Definition Zsum (l : list Z) : Z := fold_left Z.add l 0.

Definition count_true (l : list bool) : Z :=
  Z.of_nat (length (List.filter (fun b : bool => b) l)).

Definition zero_if_nan (f : float) : float := if is_nan f then zero else f.

(** [series.count()]. *)
Definition count (a : array) : value :=
  PyInt (Z.of_nat (length (List.filter notna (tolist a)))).

(** [series.sum()] ([nanops.nansum], [min_count=0]). *)
Definition sum (a : array) : res value :=
  match a with
  | BoolArray l => inr (PyInt (count_true l))
  | Int64Array l => inr (PyInt (wrap_int64 (Zsum l)))
  | UInt64Array l => inr (PyInt (wrap_uint64 (Zsum l)))
  | Float64Array l =>
      res_bind (f64_add_reduce (map zero_if_nan l)) (fun f => inr (PyFloat f))
  | ObjectArray l => object_reduce r_sum l
  end.

(** [the_sum / count if count > 0 else np.nan]. *)
Definition mean_of (the_sum : res float) (n : nat) : res value :=
  match n with
  | O => inr (PyFloat nan)
  | S _ =>
      res_bind the_sum (fun f =>
        inr (PyFloat (f / float_of_Z (Z.of_nat n))%float))
  end.

(** [series.mean()] ([nanops.nanmean]). *)
Definition mean (a : array) : res value :=
  match a with
  | BoolArray l => mean_of (inr (float_of_Z (count_true l))) (length l)
  | Int64Array l | UInt64Array l =>
      mean_of (f64_add_reduce (map float_of_Z l)) (length l)
  | Float64Array l =>
      mean_of (f64_add_reduce (map zero_if_nan l))
        (length (List.filter (fun f => negb (is_nan f)) l))
  | ObjectArray l => object_reduce r_mean l
  end.

Definition median_of (present : list float) : res value :=
  match present with
  | [] => inr (PyFloat nan)
  | _ :: _ => res_bind (f64_median present) (fun f => inr (PyFloat f))
  end.

(** [series.median()] ([nanops.nanmedian]). *)
Definition median (a : array) : res value :=
  match a with
  | BoolArray l => median_of (map (fun b : bool => if b then one else zero) l)
  | Int64Array l | UInt64Array l => median_of (map float_of_Z l)
  | Float64Array l => median_of (List.filter (fun f => negb (is_nan f)) l)
  | ObjectArray l => object_reduce r_median l
  end.

(** [numpy.minimum.reduce] / [numpy.maximum.reduce]: a left fold that
    keeps the accumulator when it compares [<=] (resp. [>=]) the next
    element. *)
Definition reduce_with {A} (keep : A -> A -> res bool) (l : list A)
  : res (option A) :=
  match l with
  | [] => inr None
  | x :: l' =>
      res_bind
        (fold_left (fun acc y =>
                      res_bind acc (fun a =>
                        res_bind (keep a y) (fun b => inr (if b then a else y))))
           l' (inr x))
        (fun m => inr (Some m))
  end.

Definition extremum {A} (keep : A -> A -> res bool) (box : A -> value)
  (l : list A) : res value :=
  res_bind (reduce_with keep l) (fun m =>
    inr (match m with
         | Some x => box x
         | None => PyFloat nan
         end)).

(** [series.min()] and [series.max()] ([nanops.nanmin], [nanops.nanmax]):
    an empty array gives NaN; missing elements are replaced by the
    infinity that loses, the array is reduced, and the result is NaN when
    every element was missing.  On an object array the reduction is
    Python's [<=] or [>=] and may raise [TypeError].  On a float array
    the later of two elements that compare equal is kept, which tells
    only between the two zeros. *)
Definition minmax (is_max : bool) (a : array) : res value :=
  let op := if is_max then Py_GE else Py_LE in
  let strict := if is_max then Py_GT else Py_LT in
  let fill := if is_max then neg_infinity else infinity in
  match a with
  | BoolArray l =>
      extremum (fun x y => rich_compare op (PyBool x) (PyBool y)) PyBool l
  | Int64Array l | UInt64Array l =>
      extremum (fun x y => rich_compare op (PyInt x) (PyInt y)) PyInt l
  | Float64Array l =>
      if forallb is_nan l then inr (PyFloat nan)
      else extremum (fun x y => rich_compare strict (PyFloat x) (PyFloat y))
             PyFloat (map (fun f => if is_nan f then fill else f) l)
  | ObjectArray l =>
      res_bind
        (extremum (rich_compare op) (fun v => v)
           (map (fun v => if isna v then PyFloat fill else v) l))
        (fun m => inr (if forallb isna l then PyFloat nan else m))
  end.

Definition min := minmax false.
Definition max := minmax true.

End WithKernels.
End Pd.

(** ** The request handlers *)
Module Api.
Import Py Pd.

(** *** Handler computations

    A handler reads and writes the module-level [data_store] and either
    returns or raises.  What it wrote before raising stays written. *)
Definition M (A : Type) : Type :=
  gmap string DataFrame -> res A * gmap string DataFrame.

Definition ret {A} (a : A) : M A := fun store => (inr a, store).

Definition raise {A} (e : exn) : M A := fun store => (inl e, store).

Definition lift {A} (r : res A) : M A := fun store => (r, store).

Definition bind {A B} (m : M A) (k : A -> M B) : M B :=
  fun store =>
    match m store with
    | (inl e, store') => (inl e, store')
    | (inr a, store') => k a store'
    end.

(** [try: body / except Exception as e: handler e]. *)
Definition try_except {A} (body : M A) (handler : exn -> M A) : M A :=
  fun store =>
    match body store with
    | (inl e, store') => handler e store'
    | (inr a, store') => (inr a, store')
    end.

Notation "x <- m ;; k" := (bind m (fun x => k))
  (at level 100, m at next level, right associativity).

(** [name in data_store], [data_store[name]], [data_store[name] = df] and
    [del data_store[name]]. *)
Definition store_contains (name : string) : M bool :=
  fun store => (inr (bool_decide (is_Some (store !! name))), store).

Definition store_getitem (name : string) : M DataFrame :=
  fun store =>
    (match store !! name with
     | Some df => inr df
     | None => inl (KeyError name)
     end, store).

Definition store_setitem (name : string) (df : DataFrame) : M unit :=
  fun store => (inr tt, <[name := df]> store).

Definition store_delitem (name : string) : M unit :=
  fun store =>
    match store !! name with
    | Some _ => (inr tt, delete name store)
    | None => (inl (KeyError name), store)
    end.

(** *** Request and response models *)

Module DataUpload.
Record t : Type := { name : string; data : list record }.
End DataUpload.

Module FilterRequest.
Record t : Type := {
  dataset_name : string;
  column : string;
  operation : string;
  value : Py.value
}.
End FilterRequest.

Module AggregateRequest.
Record t : Type := {
  dataset_name : string;
  column : string;
  operation : string
}.
End AggregateRequest.

(** A parameter with a default value: left out by the caller, or given. *)
Inductive arg (A : Type) : Type :=
| omitted
| given (a : A).
Arguments omitted {A}.
Arguments given {A} a.

Definition or_default {A} (a : arg A) (d : A) : A :=
  match a with
  | omitted => d
  | given x => x
  end.

Module Listed.
Record t : Type := { rows : Z; columns : list string; shape : Z * Z }.
End Listed.

Module Created.
Record t : Type := { message : string; shape : Z * Z; columns : list string }.
End Created.

Module Fetched.
Record t : Type := {
  data : list record;
  columns : list string;
  total_rows : Z;
  dtypes : list (string * string)
}.
End Fetched.

Module Deleted.
Record t : Type := { message : string }.
End Deleted.

Module Filtered.
Record t : Type := { data : list record; total_rows : Z }.
End Filtered.

Module Aggregated.
Record t : Type := {
  column : string;
  operation : string;
  result : option float
}.
End Aggregated.

Definition not_found {A} : M A :=
  raise (HTTPException 404 (Text "Dataset not found")).

Definition column_not_found {A} (column : string) : M A :=
  raise (HTTPException 400 (Text ("Column '" +:+ column +:+ "' not found"))).

Definition invalid_operation {A} : M A :=
  raise (HTTPException 400 (Text "Invalid operation")).

(** [except Exception as e: raise HTTPException(status_code=400,
    detail=str(e))]. *)
Definition bad_request {A} (e : exn) : M A :=
  raise (HTTPException 400 (str_exn e)).

Section WithKernels.
Context {K : Kernels}.

(** [GET /api/datasets] *)
Definition list_datasets : M (gmap string Listed.t) :=
  fun store =>
    (inr ((fun df => {| Listed.rows := len df;
                        Listed.columns := Pd.columns df;
                        Listed.shape := Pd.shape df |}) <$> store), store).

(** [POST /api/datasets] *)
Definition create_dataset (data_upload : DataUpload.t) : M Created.t :=
  try_except
    (df <- lift (DataFrame_ (DataUpload.data data_upload)) ;;
     _ <- store_setitem (DataUpload.name data_upload) df ;;
     ret {| Created.message :=
              "Dataset '" +:+ DataUpload.name data_upload
                +:+ "' created successfully";
            Created.shape := Pd.shape df;
            Created.columns := Pd.columns df |})
    bad_request.

(** [GET /api/datasets/{dataset_name}], [limit: Optional[int] = 100] *)
Definition get_dataset (dataset_name : string) (limit : arg (option Z))
  : M Fetched.t :=
  let limit := or_default limit (Some 100) in
  present <- store_contains dataset_name ;;
  if negb present then not_found
  else
    df <- store_getitem dataset_name ;;
    let limited_df :=
      match limit with
      | Some n => if truthy limit then head n df else df
      | None => df
      end in
    ret {| Fetched.data := to_dict_records limited_df;
           Fetched.columns := Pd.columns df;
           Fetched.total_rows := len df;
           Fetched.dtypes :=
             map (fun cd => (fst cd, dtype_str (snd cd))) (Pd.dtypes df) |}.

(** [DELETE /api/datasets/{dataset_name}] *)
Definition delete_dataset (dataset_name : string) : M Deleted.t :=
  present <- store_contains dataset_name ;;
  if negb present then not_found
  else
    _ <- store_delitem dataset_name ;;
    ret {| Deleted.message :=
             "Dataset '" +:+ dataset_name +:+ "' deleted successfully" |}.

(** The branches of [filter_data]'s [if]/[elif] chain: the mask of the
    rows to keep. *)
Definition filter_mask (df : DataFrame) (column operation : string)
  (value : Py.value) : M (list bool) :=
  if String.eqb operation "eq" then
    series <- lift (getitem column (cols df)) ;;
    lift (compare_scalar op_eq series value)
  else if String.eqb operation "gt" then
    series <- lift (getitem column (cols df)) ;;
    lift (compare_scalar op_gt series value)
  else if String.eqb operation "lt" then
    series <- lift (getitem column (cols df)) ;;
    lift (compare_scalar op_lt series value)
  else if String.eqb operation "contains" then
    series <- lift (getitem column (cols df)) ;;
    strings <- lift (astype_str series) ;;
    pat <- lift (str_ value) ;;
    lift (str_contains pat strings)
  else invalid_operation.

(** [POST /api/filter] *)
Definition filter_data (request : FilterRequest.t) : M Filtered.t :=
  present <- store_contains (FilterRequest.dataset_name request) ;;
  if negb present then not_found
  else
    df <- store_getitem (FilterRequest.dataset_name request) ;;
    if negb (has_column (FilterRequest.column request) df)
    then column_not_found (FilterRequest.column request)
    else
      try_except
        (mask <- filter_mask df (FilterRequest.column request)
                   (FilterRequest.operation request)
                   (FilterRequest.value request) ;;
         let filtered_df := getitem_mask mask df in
         ret {| Filtered.data := to_dict_records filtered_df;
                Filtered.total_rows := len filtered_df |})
        bad_request.

(** The branches of [aggregate_data]'s [if]/[elif] chain. *)
Definition reduce (series : res array) (operation : string) : M Py.value :=
  if String.eqb operation "sum" then
    lift (res_bind series Pd.sum)
  else if String.eqb operation "mean" then
    lift (res_bind series Pd.mean)
  else if String.eqb operation "median" then
    lift (res_bind series Pd.median)
  else if String.eqb operation "count" then
    lift (res_bind series (fun a => inr (Pd.count a)))
  else if String.eqb operation "min" then
    lift (res_bind series Pd.min)
  else if String.eqb operation "max" then
    lift (res_bind series Pd.max)
  else invalid_operation.

(** [POST /api/aggregate] *)
Definition aggregate_data (request : AggregateRequest.t) : M Aggregated.t :=
  present <- store_contains (AggregateRequest.dataset_name request) ;;
  if negb present then not_found
  else
    df <- store_getitem (AggregateRequest.dataset_name request) ;;
    if negb (has_column (AggregateRequest.column request) df)
    then column_not_found (AggregateRequest.column request)
    else
      try_except
        (result <- reduce (getitem (AggregateRequest.column request) (cols df))
                     (AggregateRequest.operation request) ;;
         result <- (if notna result
                    then f <- lift (Py.float_ result) ;; ret (Some f)
                    else ret None) ;;
         ret {| Aggregated.column := AggregateRequest.column request;
                Aggregated.operation := AggregateRequest.operation request;
                Aggregated.result := result |})
        bad_request.

(** The records seeded at start-up. *)
Definition sample_data : list record := [
  [("id", PyInt 1); ("name", PyStr "Alice"); ("age", PyInt 30);
   ("city", PyStr "New York"); ("salary", PyInt 75000)];
  [("id", PyInt 2); ("name", PyStr "Bob"); ("age", PyInt 25);
   ("city", PyStr "San Francisco"); ("salary", PyInt 85000)];
  [("id", PyInt 3); ("name", PyStr "Charlie"); ("age", PyInt 35);
   ("city", PyStr "Los Angeles"); ("salary", PyInt 65000)];
  [("id", PyInt 4); ("name", PyStr "Diana"); ("age", PyInt 28);
   ("city", PyStr "New York"); ("salary", PyInt 90000)];
  [("id", PyInt 5); ("name", PyStr "Eve"); ("age", PyInt 32);
   ("city", PyStr "Chicago"); ("salary", PyInt 72000)]
].

(** Module initialisation: [data_store = {}] and then
    [data_store["sample"] = pd.DataFrame(sample_data)]. *)
Definition startup : M unit :=
  df <- lift (DataFrame_ sample_data) ;;
  store_setitem "sample" df.

Definition data_store : gmap string DataFrame := snd (startup ∅).

End WithKernels.
End Api.

(** ** Notions used in the statements *)

Import Py Pd Api.

(** A computation that leaves the store as it found it. *)
Definition preserves_store {A} (m : M A) : Prop :=
  forall store, snd (m store) = store.

(** The operation tags the two handlers know. *)
Definition filter_operations : list string := ["eq"; "gt"; "lt"; "contains"].

Definition aggregate_operations : list string :=
  ["sum"; "mean"; "median"; "count"; "min"; "max"].

(** What the caller gets for an unknown tag: the [HTTPException] raised
    in the [else] branch is caught by the handler's own [except
    Exception] and raised again with status 400 and its text as detail. *)
Definition invalid_operation_error : exn :=
  HTTPException 400 (str_exn (HTTPException 400 (Text "Invalid operation"))).

(** The order of the reduction: [a] is before [b] when strings compare
    [a <= b] for a minimum, [a >= b] for a maximum. *)
Definition before (is_max : bool) (a b : string) : bool :=
  if is_max then String.leb b a else String.leb a b.

(** [p] occurs in [s] as a substring. *)
Definition occurs_in (p s : string) : Prop :=
  exists l r, s = l +:+ p +:+ r.

(** Every column has one element per row. *)
Definition wf_frame (df : DataFrame) : Prop :=
  Forall (fun c => length (tolist (snd c)) = nrows df) (cols df).

(** Kinds of cells. *)
Definition is_bool (v : Py.value) : bool :=
  match v with PyBool _ => true | _ => false end.
Definition is_int (v : Py.value) : bool :=
  match v with PyInt _ => true | _ => false end.
Definition is_float (v : Py.value) : bool :=
  match v with PyFloat _ => true | _ => false end.
Definition is_str (v : Py.value) : bool :=
  match v with PyStr _ => true | _ => false end.

(** An integer cell is safe when it converts to a double without
    overflow and, if its column also holds a float, exactly. *)
Definition int_ok (with_float : bool) (v : Py.value) : bool :=
  match v with
  | PyInt z => negb (int_overflows z) && (negb with_float || float_exact z)
  | _ => true
  end.

Definition is_none (v : Py.value) : bool :=
  match v with PyNone => true | _ => false end.
Definition is_nan_cell (v : Py.value) : bool :=
  match v with PyFloat f => is_nan f | _ => false end.

(** A column of numbers: it holds an integer or a float, and neither a
    boolean nor a string. *)
Definition numeric (objects : list Py.value) : bool :=
  (existsb is_int objects || existsb is_float objects)
  && negb (existsb is_bool objects) && negb (existsb is_str objects).

(** The cells of one column come back from type inference as they went
    in: none is NaN, no integer overflows, and, in a column of numbers,
    none is null and the integers are safe. *)
Definition survives (objects : list Py.value) : bool :=
  forallb (fun v => negb (is_nan_cell v)) objects &&
  forallb (int_ok false) objects &&
  (negb (numeric objects) ||
   forallb notna objects &&
   forallb (int_ok (existsb is_float objects)) objects).

(** Rows over the same, non-empty, set of keys. *)
Definition rectangular (keys : list string) (rows : list record) : Prop :=
  keys <> [] /\ List.NoDup keys /\
  Forall (fun row => Permutation (map fst row) keys) rows.

(** The seeded table, evaluated. *)
Definition sample_frame : DataFrame :=
  Eval vm_compute in
    match DataFrame_ sample_data with
    | inr df => df
    | inl _ => {| nrows := O; cols := [] |}
    end.

(** An upload with a null under a number, and one with a null under a
    text. *)
Definition null_under_number : list record :=
  [[("a", PyInt 1)]; [("a", PyNone)]].

Definition null_under_text : list record :=
  [[("tag", PyStr "x")]; [("tag", PyNone)]].

(** An upload with a missing number: key [a] is null in the first row
    and absent from the second. *)
Definition all_missing : list record :=
  [[("a", PyNone); ("b", PyInt 1)]; [("b", PyInt 2)]].

(** An upload with an integer beyond the range of doubles. *)
Definition huge_integer : list record := [[("n", PyInt (10 ^ 400))]].

(** An upload of two records without any key. *)
Definition rows_without_keys : list record := [[]; []].

(** An upload with nulls under a text and under a boolean, beside a
    column of integers. *)
Definition nulls_beside_numbers : list record :=
  [[("tag", PyStr "x"); ("ok", PyBool true); ("n", PyInt 1)];
   [("tag", PyNone); ("ok", PyNone); ("n", PyInt 2)]].

(** Every stored table is well-formed. *)
Definition store_wf (store : gmap string DataFrame) : Prop :=
  forall name df, store !! name = Some df -> wf_frame df.

(** No integer of the upload is too large for a double. *)
Definition no_overflow (rows : list record) : bool :=
  forallb (fun row => forallb (fun kv => int_ok false (snd kv)) row) rows.

(** The order of the reduction on integers. *)
Definition before_Z (is_max : bool) (a b : Z) : bool :=
  if is_max then b <=? a else a <=? b.

(** The status and text of a missing dataset. *)
Definition dataset_not_found : exn :=
  HTTPException 404 (Text "Dataset not found").

(** ** The statistics endpoint

    [df.describe(include='all').to_dict()] is taken as a parameter
    [describe], which may raise; the null counts are modelled. *)
Module Stats.

(** [df.isnull().sum().to_dict()]: per column, the number of missing
    cells. *)
Definition isnull_sum (df : DataFrame) : list (string * Z) :=
  map (fun c => (fst c, Z.of_nat (length (List.filter isna (tolist (snd c))))))
    (cols df).

Fixpoint lookup_count (column : string) (counts : list (string * Z)) : option Z :=
  match counts with
  | [] => None
  | (k, n) :: counts' =>
      if String.eqb column k then Some n else lookup_count column counts'
  end.

Section WithDescribe.
Context {summary : Type} (describe : DataFrame -> res summary).

Record t : Type := {
  statistics : summary;
  null_counts : list (string * Z)
}.

(** [GET /api/datasets/{dataset_name}/stats]; the handler has no [try]
    block, so what [describe] raises leaves the handler as it is. *)
Definition get_statistics (dataset_name : string) : M t :=
  present <- store_contains dataset_name ;;
  if negb present then not_found
  else
    df <- store_getitem dataset_name ;;
    stats <- lift (describe df) ;;
    ret {| statistics := stats; null_counts := isnull_sum df |}.

End WithDescribe.
End Stats.

(** * Properties *)

(** ** Frame conditions: which computations leave the store alone *)

Lemma preserves_ret {A} (a : A) : preserves_store (ret a).
Proof. intros store. reflexivity. Qed.

Lemma preserves_raise {A} (e : exn) : preserves_store (@raise A e).
Proof. intros store. reflexivity. Qed.

Lemma preserves_lift {A} (r : res A) : preserves_store (lift r).
Proof. intros store. reflexivity. Qed.

Lemma preserves_bind {A B} (m : M A) (k : A -> M B) :
  preserves_store m -> (forall a, preserves_store (k a)) ->
  preserves_store (bind m k).
Proof.
  intros Hm Hk store. unfold bind.
  specialize (Hm store). destruct (m store) as [[e | a] store']; simpl in *; subst.
  - reflexivity.
  - apply Hk.
Qed.

Lemma preserves_try_except {A} (body : M A) (handler : exn -> M A) :
  preserves_store body -> (forall e, preserves_store (handler e)) ->
  preserves_store (try_except body handler).
Proof.
  intros Hb Hh store. unfold try_except.
  specialize (Hb store). destruct (body store) as [[e | a] store']; simpl in *; subst.
  - apply Hh.
  - reflexivity.
Qed.

Lemma preserves_store_contains name : preserves_store (store_contains name).
Proof. intros store. reflexivity. Qed.

Lemma preserves_store_getitem name : preserves_store (store_getitem name).
Proof. intros store. reflexivity. Qed.

Lemma preserves_if {A} (b : bool) (m1 m2 : M A) :
  preserves_store m1 -> preserves_store m2 ->
  preserves_store (if b then m1 else m2).
Proof. destruct b; auto. Qed.

Create HintDb frame.
#[export] Hint Resolve preserves_ret preserves_raise preserves_lift
  preserves_store_contains preserves_store_getitem : frame.

(** Splits a handler along its binds, branches and [try] blocks. *)
Ltac frame :=
  repeat first
    [ apply preserves_bind; [ | intros ? ]
    | apply preserves_try_except; [ | intros ? ]
    | apply preserves_if
    | solve [ auto with frame ]
    | progress unfold not_found, column_not_found, invalid_operation,
        bad_request ].

Section Handlers.
Context {K : Kernels}.

Lemma preserves_filter_mask df column operation value :
  preserves_store (filter_mask df column operation value).
Proof. unfold filter_mask. frame. Qed.

Lemma preserves_reduce series operation :
  preserves_store (reduce series operation).
Proof. unfold reduce. frame. Qed.

(** C8. Filtering never writes the store: whatever the dataset name, the
    column, the operation tag and the value, and whether the handler
    returns or raises, the store after [filter_data] is the store
    before. *)
Theorem filter_data_preserves_store (request : FilterRequest.t)
  (store : gmap string DataFrame) :
  snd (filter_data request store) = store.
Proof.
  revert store. change (preserves_store (filter_data request)).
  unfold filter_data. frame.
Qed.

(** What the handlers do once the dataset is found and the column is
    there. *)
Lemma lookup_present (store : gmap string DataFrame) name df :
  store !! name = Some df ->
  store_contains name store = (inr true, store) /\
  store_getitem name store = (inr df, store).
Proof.
  intros H. unfold store_contains, store_getitem. rewrite H. split.
  - rewrite bool_decide_eq_true_2; [reflexivity | eauto].
  - reflexivity.
Qed.

Lemma filter_data_found store request df :
  store !! FilterRequest.dataset_name request = Some df ->
  has_column (FilterRequest.column request) df = true ->
  filter_data request store =
  try_except
    (mask <- filter_mask df (FilterRequest.column request)
               (FilterRequest.operation request)
               (FilterRequest.value request) ;;
     ret {| Filtered.data := to_dict_records (getitem_mask mask df);
            Filtered.total_rows := len (getitem_mask mask df) |})
    bad_request store.
Proof.
  intros Hdf Hcol. destruct (lookup_present _ _ _ Hdf) as [Hc Hg].
  unfold filter_data, bind at 1. rewrite Hc. simpl.
  unfold bind at 1. rewrite Hg. rewrite Hcol. reflexivity.
Qed.

Lemma aggregate_data_found store request df :
  store !! AggregateRequest.dataset_name request = Some df ->
  has_column (AggregateRequest.column request) df = true ->
  aggregate_data request store =
  try_except
    (result <- reduce (getitem (AggregateRequest.column request) (cols df))
                 (AggregateRequest.operation request) ;;
     result <- (if notna result
                then f <- lift (Py.float_ result) ;; ret (Some f)
                else ret None) ;;
     ret {| Aggregated.column := AggregateRequest.column request;
            Aggregated.operation := AggregateRequest.operation request;
            Aggregated.result := result |})
    bad_request store.
Proof.
  intros Hdf Hcol. destruct (lookup_present _ _ _ Hdf) as [Hc Hg].
  unfold aggregate_data, bind at 1. rewrite Hc. simpl.
  unfold bind at 1. rewrite Hg. rewrite Hcol. reflexivity.
Qed.

End Handlers.

Section Handlers2.
Context {K : Kernels}.

Lemma eqb_not_in (operation tag : string) (tags : list string) :
  ~ In operation tags -> In tag tags -> String.eqb operation tag = false.
Proof.
  intros Hn Hin. apply String.eqb_neq. intros ->. contradiction.
Qed.

(** C3. For an existing dataset and an existing column, an operation tag
    outside the documented set makes [filter_data] and [aggregate_data]
    raise the invalid-operation error: an [HTTPException] with status 400
    whose detail is the text of the "Invalid operation" exception, and
    nothing else; the store is untouched. *)
Theorem unknown_operation_rejected (store : gmap string DataFrame)
  (name column operation : string) (value : Py.value) (df : DataFrame) :
  store !! name = Some df ->
  has_column column df = true ->
  (~ In operation filter_operations ->
   filter_data {| FilterRequest.dataset_name := name;
                  FilterRequest.column := column;
                  FilterRequest.operation := operation;
                  FilterRequest.value := value |} store
   = (inl invalid_operation_error, store)) /\
  (~ In operation aggregate_operations ->
   aggregate_data {| AggregateRequest.dataset_name := name;
                     AggregateRequest.column := column;
                     AggregateRequest.operation := operation |} store
   = (inl invalid_operation_error, store)).
Proof.
  intros Hdf Hcol. split; intros Hop.
  - rewrite (filter_data_found store _ df) by assumption. simpl.
    unfold try_except, bind, filter_mask.
    rewrite !(eqb_not_in operation _ filter_operations Hop)
      by (simpl; tauto).
    reflexivity.
  - rewrite (aggregate_data_found store _ df) by assumption. simpl.
    unfold try_except, bind, reduce.
    rewrite !(eqb_not_in operation _ aggregate_operations Hop)
      by (simpl; tauto).
    reflexivity.
Qed.

(** C9. When the table is built, [create_dataset] returns and binds the
    name to that table in the store, whatever was bound to the name
    before. *)
Theorem create_dataset_binds (store : gmap string DataFrame)
  (name : string) (rows : list record) (df : DataFrame) :
  DataFrame_ rows = inr df ->
  exists created,
    create_dataset {| DataUpload.name := name; DataUpload.data := rows |} store
    = (inr created, <[name := df]> store) /\
    (<[name := df]> store) !! name = Some df /\
    Created.shape created = Pd.shape df /\
    Created.columns created = Pd.columns df.
Proof.
  intros Hdf. eexists. split; [ | split; [ | split ] ].
  - unfold create_dataset, try_except, bind, lift, store_setitem, ret. simpl.
    rewrite Hdf. reflexivity.
  - apply lookup_insert_eq.
  - reflexivity.
  - reflexivity.
Qed.

(** C10. When building the table raises, [create_dataset] raises an
    [HTTPException] with status 400 carrying the text of that exception,
    and the store is exactly the store before the call: a dataset already
    bound to the name is still there and nothing new is bound. *)
Theorem create_dataset_atomic (store : gmap string DataFrame)
  (name : string) (rows : list record) (e : exn) :
  DataFrame_ rows = inl e ->
  create_dataset {| DataUpload.name := name; DataUpload.data := rows |} store
  = (inl (HTTPException 400 (str_exn e)), store).
Proof.
  intros Hdf.
  unfold create_dataset, try_except, bind, lift. simpl.
  rewrite Hdf. reflexivity.
Qed.

(** C6. For an existing dataset and an existing column, when the
    reduction returns a missing value ([None] or NaN), [aggregate_data]
    returns normally and its [result] is the absent value. *)
Theorem aggregate_missing_result_is_null (store : gmap string DataFrame)
  (request : AggregateRequest.t) (df : DataFrame) (r : Py.value) :
  store !! AggregateRequest.dataset_name request = Some df ->
  has_column (AggregateRequest.column request) df = true ->
  fst (reduce (getitem (AggregateRequest.column request) (cols df))
         (AggregateRequest.operation request) store) = inr r ->
  notna r = false ->
  aggregate_data request store
  = (inr {| Aggregated.column := AggregateRequest.column request;
            Aggregated.operation := AggregateRequest.operation request;
            Aggregated.result := None |}, store).
Proof.
  intros Hdf Hcol Hred Hna.
  rewrite (aggregate_data_found store _ df) by assumption.
  pose proof (preserves_reduce
                (getitem (AggregateRequest.column request) (cols df))
                (AggregateRequest.operation request) store) as Hst.
  unfold try_except, bind.
  destruct (reduce _ _ store) as [res store'] eqn:Hr. simpl in *. subst.
  rewrite Hna. reflexivity.
Qed.

(** C7. On the seeded store, the sum of column [salary] of dataset
    [sample] is 75000+85000+65000+90000+72000 = 387000. *)
Theorem sample_salary_sum :
  aggregate_data {| AggregateRequest.dataset_name := "sample";
                    AggregateRequest.column := "salary";
                    AggregateRequest.operation := "sum" |} data_store
  = (inr {| Aggregated.column := "salary";
            Aggregated.operation := "sum";
            Aggregated.result := Some (387000)%float |}, data_store)
  /\ (75000 + 85000 + 65000 + 90000 + 72000 = 387000)%Z.
Proof.
  split; [ | reflexivity ].
  vm_compute. reflexivity.
Qed.

End Handlers2.

(** ** Fetching a dataset *)

Lemma to_dict_records_length (df : DataFrame) :
  length (to_dict_records df)
  = match cols df with [] => O | _ :: _ => nrows df end.
Proof.
  unfold to_dict_records, tuples. destruct (cols df); [reflexivity | ].
  rewrite length_map, length_seq. reflexivity.
Qed.

Lemma slice_stop_bound (n : Z) (size : nat) :
  0 <= n -> (slice_stop n size <= Z.to_nat n)%nat.
Proof.
  intros Hn. unfold slice_stop.
  destruct (0 <=? n) eqn:E; [ apply Nat.le_min_l | ].
  apply Z.leb_gt in E. lia.
Qed.

Lemma head_records_bound (n : Z) (df : DataFrame) :
  0 <= n -> (length (to_dict_records (head n df)) <= Z.to_nat n)%nat.
Proof.
  intros Hn. rewrite to_dict_records_length. simpl.
  destruct (map _ (cols df)); [ lia | apply slice_stop_bound; assumption ].
Qed.

Section Fetch.
Context {K : Kernels}.

Lemma get_dataset_found (store : gmap string DataFrame) name df limit :
  store !! name = Some df ->
  get_dataset name limit store
  = (inr {| Fetched.data :=
              to_dict_records
                match or_default limit (Some 100) with
                | Some n => if negb (n =? 0) then head n df else df
                | None => df
                end;
            Fetched.columns := Pd.columns df;
            Fetched.total_rows := len df;
            Fetched.dtypes :=
              map (fun cd => (fst cd, dtype_str (snd cd))) (Pd.dtypes df) |},
     store).
Proof.
  intros Hdf. destruct (lookup_present _ _ _ Hdf) as [Hc Hg].
  unfold get_dataset, bind at 1. rewrite Hc. simpl.
  unfold bind. rewrite Hg. unfold ret.
  destruct (or_default limit (Some 100)); reflexivity.
Qed.

(** C1 (amended). Fetching an existing dataset.  Without [limit] the
    handler behaves as with the literal 100 and returns the records of
    [df.head(100)], at most 100 of them.  With [limit = 0] no cap is
    applied: the records are those of the whole table, one for every row
    when the table has a column, and none when it has no column.
    Whatever the limit, [total_rows] is the row count of the stored
    table. *)
Theorem get_dataset_limit (store : gmap string DataFrame) (name : string)
  (df : DataFrame) :
  store !! name = Some df ->
  (get_dataset name omitted store = get_dataset name (given (Some 100)) store /\
   exists r, get_dataset name omitted store = (inr r, store) /\
     Fetched.data r = to_dict_records (head 100 df) /\
     (length (Fetched.data r) <= 100)%nat /\
     Fetched.total_rows r = len df) /\
  (exists r, get_dataset name (given (Some 0)) store = (inr r, store) /\
     Fetched.data r = to_dict_records df /\
     (cols df <> [] -> Z.of_nat (length (Fetched.data r)) = len df) /\
     (cols df = [] -> Fetched.data r = []) /\
     Fetched.total_rows r = len df) /\
  (forall limit, exists r, get_dataset name limit store = (inr r, store) /\
     Fetched.total_rows r = len df).
Proof.
  intros Hdf. split; [ split | split ].
  - reflexivity.
  - eexists. split; [ apply (get_dataset_found store name df omitted Hdf) | ].
    simpl. split; [ reflexivity | split; [ | reflexivity ] ].
    apply (head_records_bound 100 df). lia.
  - eexists. split; [ apply (get_dataset_found store name df _ Hdf) | ].
    simpl. split; [ reflexivity | split; [ | split; [ | reflexivity ] ] ].
    + intros Hne. rewrite to_dict_records_length. unfold len.
      destruct (cols df); [ contradiction | reflexivity ].
    + intros He. unfold to_dict_records. rewrite He. reflexivity.
  - intros limit. eexists.
    split; [ apply (get_dataset_found store name df limit Hdf) | reflexivity ].
Qed.

End Fetch.

(** ** Minimum and maximum of a text column *)

Lemma leb_iff (a b : string) :
  String.leb a b = true <-> a = b \/ OrderedTypeEx.String_as_OT.lt a b.
Proof.
  unfold String.leb.
  pose proof (OrderedTypeEx.String_as_OT.cmp_eq a b) as He.
  pose proof (OrderedTypeEx.String_as_OT.cmp_lt a b) as Hl.
  unfold OrderedTypeEx.String_as_OT.cmp in *.
  destruct (String.compare a b) eqn:E; split; intros H; try tauto; try discriminate.
  - destruct H as [H | H].
    + apply He in H. discriminate.
    + apply Hl in H. discriminate.
Qed.

Lemma leb_refl (a : string) : String.leb a a = true.
Proof. apply leb_iff. left. reflexivity. Qed.

Lemma leb_trans (a b c : string) :
  String.leb a b = true -> String.leb b c = true -> String.leb a c = true.
Proof.
  rewrite !leb_iff. intros [-> | Hab] [-> | Hbc]; auto.
  right. eapply OrderedTypeEx.String_as_OT.lt_trans; eassumption.
Qed.

Lemma before_refl is_max a : before is_max a a = true.
Proof. destruct is_max; apply leb_refl. Qed.

Lemma before_total is_max a b :
  before is_max a b = true \/ before is_max b a = true.
Proof. destruct is_max; simpl; apply String.leb_total. Qed.

Lemma before_trans is_max a b c :
  before is_max a b = true -> before is_max b c = true ->
  before is_max a c = true.
Proof. destruct is_max; simpl; eauto using leb_trans. Qed.

Lemma cmp_holds_before (is_max : bool) (a b : string) :
  cmp_holds (if is_max then Py_GE else Py_LE) (String.compare a b)
  = before is_max a b.
Proof.
  destruct is_max; simpl; unfold String.leb.
  - rewrite (String.compare_antisym a b).
    destruct (String.compare b a); reflexivity.
  - destruct (String.compare a b); reflexivity.
Qed.

(** The left fold of the reduction, on strings. *)
Lemma fold_before_spec (is_max : bool) (l : list string) (x : string) :
  let m := fold_left (fun a y => if before is_max a y then a else y) l x in
  In m (x :: l) /\ forall s, In s (x :: l) -> before is_max m s = true.
Proof.
  revert x. induction l as [ | y l IH ]; intros x; simpl.
  - split; [ auto | ]. intros s [<- | []]. apply before_refl.
  - destruct (IH (if before is_max x y then x else y)) as [Hin Hle].
    simpl in Hin, Hle. split.
    + destruct Hin as [Hin | Hin]; [ | auto ].
      rewrite <- Hin. destruct (before is_max x y); auto.
    + intros s Hs.
      assert (Hpick : before is_max (if before is_max x y then x else y) x = true
                      /\ before is_max (if before is_max x y then x else y) y = true).
      { destruct (before is_max x y) eqn:E.
        - split; [ apply before_refl | assumption ].
        - split; [ | apply before_refl ].
          destruct (before_total is_max x y); congruence. }
      destruct Hpick as [Hx Hy].
      destruct Hs as [<- | [<- | Hs]].
      * eapply before_trans; [ apply Hle; auto | exact Hx ].
      * eapply before_trans; [ apply Hle; auto | exact Hy ].
      * apply Hle. auto.
Qed.

Lemma reduce_strings (is_max : bool) (l : list string) (x : string) :
  fold_left
    (fun acc y =>
       res_bind acc (fun a =>
         res_bind (rich_compare (if is_max then Py_GE else Py_LE) a y)
           (fun b => inr (if b then a else y))))
    (map PyStr l) (inr (PyStr x))
  = inr (PyStr (fold_left (fun a y => if before is_max a y then a else y) l x)).
Proof.
  revert x. induction l as [ | y l IH ]; intros x; simpl; [ reflexivity | ].
  rewrite cmp_holds_before. destruct (before is_max x y); apply IH.
Qed.

Lemma map_fill_strings (fill : float) (l : list string) :
  map (fun v => if isna v then PyFloat fill else v) (map PyStr l) = map PyStr l.
Proof. rewrite map_map. reflexivity. Qed.

(** On a column of strings, the reduction returns a string of the column
    that is before every other. *)
Lemma minmax_strings (is_max : bool) (ss : list string) :
  ss <> [] ->
  exists m, minmax is_max (ObjectArray (map PyStr ss)) = inr (PyStr m) /\
    In m ss /\ forall s, In s ss -> before is_max m s = true.
Proof.
  intros Hne. destruct ss as [ | x l ]; [ contradiction | ].
  destruct (fold_before_spec is_max l x) as [Hin Hle].
  eexists. split; [ | split; [ exact Hin | exact Hle ] ].
  unfold minmax. rewrite map_fill_strings. simpl.
  unfold extremum, reduce_with. simpl.
  rewrite reduce_strings. reflexivity.
Qed.

Lemma getitem_has_column (col : string) (df : DataFrame) (a : array) :
  getitem col (cols df) = inr a -> has_column col df = true.
Proof.
  unfold has_column, columns. induction (cols df) as [ | [k b] cs IH ]; simpl.
  - discriminate.
  - destruct (String.eqb col k); [ reflexivity | exact IH ].
Qed.

Section TextColumn.
Context {K : Kernels}.

Lemma reduce_min series : reduce series "min" = lift (res_bind series Pd.min).
Proof. reflexivity. Qed.

Lemma reduce_max series : reduce series "max" = lift (res_bind series Pd.max).
Proof. reflexivity. Qed.

(** C2 (amended). On a column that holds only strings, [min] and [max]
    find the lexicographically least, resp. greatest, string [m] of the
    column; the handler then applies [float] to it.  It returns, with
    that number as result, exactly when [m] reads as a float literal;
    otherwise it raises an [HTTPException] with status 400 whose detail
    is the text of the [ValueError]. *)
Theorem aggregate_minmax_text (store : gmap string DataFrame)
  (name column : string) (df : DataFrame) (ss : list string) (is_max : bool) :
  store !! name = Some df ->
  getitem column (cols df) = inr (ObjectArray (map PyStr ss)) ->
  ss <> [] ->
  let operation := if is_max then "max" else "min" in
  exists m, In m ss /\ (forall s, In s ss -> before is_max m s = true) /\
    aggregate_data {| AggregateRequest.dataset_name := name;
                      AggregateRequest.column := column;
                      AggregateRequest.operation := operation |} store
    = (match parse_float m with
       | Some f => inr {| Aggregated.column := column;
                          Aggregated.operation := operation;
                          Aggregated.result := Some f |}
       | None => inl (HTTPException 400
                        (str_exn (ValueError "could not convert string to float"
                                    [PyStr m])))
       end, store).
Proof.
  intros Hdf Hcol Hne operation.
  destruct (minmax_strings is_max ss Hne) as (m & Hm & Hin & Hle).
  exists m. split; [ exact Hin | split; [ exact Hle | ] ].
  rewrite (aggregate_data_found store _ df);
    [ | exact Hdf | exact (getitem_has_column _ _ _ Hcol) ].
  simpl. rewrite Hcol. unfold try_except, bind.
  assert (Hred : reduce (inr (ObjectArray (map PyStr ss))) operation store
                 = (inr (PyStr m), store)).
  { unfold operation. destruct is_max.
    - rewrite reduce_max. unfold lift, res_bind, Pd.max. rewrite Hm. reflexivity.
    - rewrite reduce_min. unfold lift, res_bind, Pd.min. rewrite Hm. reflexivity. }
  rewrite Hred. simpl. unfold lift, bind, Py.float_.
  destruct (parse_float m); reflexivity.
Qed.

End TextColumn.

(** ** Substring search *)

Lemma prefix_iff (p s : string) :
  String.prefix p s = true <-> exists r, s = p +:+ r.
Proof.
  revert s. induction p as [ | a p IH ]; intros s; simpl.
  - split; [ intros _; exists s; reflexivity | ].
    intros _. destruct s; reflexivity.
  - destruct s as [ | b s ].
    + split; [ discriminate | intros [r Hr]; discriminate ].
    + simpl. destruct (ascii_dec a b) as [-> | Hne].
      * rewrite IH. split; intros [r Hr]; exists r.
        -- rewrite Hr. reflexivity.
        -- injection Hr. auto.
      * split; [ discriminate | ].
        intros [r Hr]. injection Hr. intros _ E. congruence.
Qed.

Lemma contains_iff (p s : string) :
  contains p s = true <-> occurs_in p s.
Proof.
  unfold occurs_in. induction s as [ | a s IH ]; cbn [contains].
  - rewrite orb_false_r, prefix_iff. split.
    + intros [r Hr]. exists EmptyString, r. exact Hr.
    + intros (l & r & H). destruct l; simpl in H.
      * exists r. exact H.
      * discriminate.
  - rewrite orb_true_iff, IH, prefix_iff. split.
    + intros [[r Hr] | (l & r & H)].
      * exists EmptyString, r. exact Hr.
      * exists (String a l), r. simpl. rewrite H. reflexivity.
    + intros (l & r & H). destruct l as [ | b l ]; simpl in H.
      * left. exists r. exact H.
      * right. injection H. intros H' _. exists l, r. exact H'.
Qed.

(** ** Rows kept by a mask *)

Lemma compress_map {A B} (g : A -> B) (mask : list bool) (l : list A) :
  map g (compress mask l) = compress mask (map g l).
Proof.
  revert l. induction mask as [ | b mask IH ]; intros [ | x l ]; simpl; auto.
  destruct b; simpl; rewrite IH; reflexivity.
Qed.

Lemma compress_nil {A} (mask : list bool) : compress mask (@nil A) = [].
Proof. destruct mask; reflexivity. Qed.

Lemma compress_seq_ge (mask : list bool) (s n i : nat) :
  In i (compress mask (seq s n)) -> (s <= i)%nat.
Proof.
  revert mask s. induction n as [ | n IH ]; intros mask s; simpl.
  - rewrite compress_nil. intros [].
  - destruct mask as [ | b mask ]; simpl; [ intros [] | ].
    destruct b; simpl; [ intros [<- | H] | intros H ];
      try lia; apply IH in H; lia.
Qed.

Lemma compress_nth {A} (d : A) (mask : list bool) (l : list A) (s : nat) :
  compress mask l
  = map (fun i => nth (i - s) l d) (compress mask (seq s (length l))).
Proof.
  revert mask s. induction l as [ | x l IH ]; intros mask s; simpl.
  - rewrite !compress_nil. reflexivity.
  - destruct mask as [ | b mask ]; simpl; [ reflexivity | ].
    assert (Htail : compress mask l
                    = map (fun i => nth (i - s) (x :: l) d)
                        (compress mask (seq (S s) (length l)))).
    { rewrite (IH mask (S s)). apply map_ext_in. intros i Hi.
      apply compress_seq_ge in Hi.
      replace (i - s)%nat with (S (i - S s)) by lia. reflexivity. }
    destruct b; simpl.
    + rewrite Nat.sub_diag. f_equal. exact Htail.
    + exact Htail.
Qed.

Lemma map_nth_seq {A B} (g : A -> B) (d : A) (l : list A) :
  map (fun j => g (nth j l d)) (seq 0 (length l)) = map g l.
Proof.
  induction l as [ | x l IH ]; simpl; [ reflexivity | ].
  f_equal. rewrite <- seq_shift, map_map. exact IH.
Qed.

Lemma tolist_compress (mask : list bool) (a : array) :
  tolist (array_map_rows (fun A => compress mask) a) = compress mask (tolist a).
Proof. destruct a; simpl; auto using compress_map. Qed.

Lemma count_compress_seq (mask : list bool) (s n : nat) :
  length mask = n ->
  length (compress mask (seq s n)) = length (List.filter (fun b : bool => b) mask).
Proof.
  revert s n. induction mask as [ | b mask IH ]; intros s n Hn; simpl in *; subst.
  - reflexivity.
  - simpl. destruct b; simpl; rewrite (IH (S s)); reflexivity.
Qed.

Lemma tuples_mask (mask : list bool) (cs : list (string * array)) (n : nat) :
  Forall (fun c => length (tolist (snd c)) = n) cs ->
  tuples (map (fun c => (fst c, array_map_rows (fun A => compress mask) (snd c))) cs)
    (length (compress mask (seq 0 n)))
  = compress mask (tuples cs n).
Proof.
  intros Hwf. unfold tuples.
  rewrite <- compress_map.
  set (kept := compress mask (seq 0 n)).
  etransitivity;
    [ | apply (map_nth_seq
                 (fun i => map (fun c => (fst c, nth i (tolist (snd c)) PyNone)) cs)
                 O kept) ].
  apply map_ext_in. intros j Hj. apply in_seq in Hj.
  rewrite map_map. apply map_ext_in. intros [k a] Hka. simpl.
  f_equal. rewrite tolist_compress.
  rewrite Forall_forall in Hwf.
  specialize (Hwf (k, a)). simpl in Hwf.
  rewrite (compress_nth PyNone mask (tolist a) 0).
  rewrite Hwf by (apply list_elem_of_In; exact Hka).
  fold kept.
  rewrite (nth_indep _ PyNone (nth (0 - 0) (tolist a) PyNone))
    by (rewrite length_map; lia).
  rewrite (map_nth (fun i => nth (i - 0) (tolist a) PyNone) kept 0%nat j).
  rewrite Nat.sub_0_r. reflexivity.
Qed.

(** On a well-formed frame, the records of [df[mask]] are the records of
    [df] at the rows the mask keeps, in order. *)
Lemma to_dict_records_mask (mask : list bool) (df : DataFrame) :
  wf_frame df ->
  to_dict_records (getitem_mask mask df) = compress mask (to_dict_records df).
Proof.
  intros Hwf. unfold wf_frame in Hwf.
  unfold to_dict_records, getitem_mask. cbn [cols nrows].
  destruct (cols df) as [ | c cs ].
  - rewrite compress_nil. reflexivity.
  - exact (tuples_mask mask (c :: cs) (nrows df) Hwf).
Qed.

(** ** The [contains] filter *)

Lemma res_map_Forall2 {A B} (f : A -> res B) (l : list A) (bs : list B) :
  res_map f l = inr bs -> Forall2 (fun a b => f a = inr b) l bs.
Proof.
  revert bs. induction l as [ | a l IH ]; intros bs; simpl.
  - intros H. injection H as <-. constructor.
  - destruct (f a) as [e | b] eqn:Hf; simpl; [ discriminate | ].
    destruct (res_map f l) as [e | bs'] eqn:Hl; simpl; [ discriminate | ].
    intros H. injection H as <-. constructor; auto.
Qed.

Lemma getitem_In (col : string) (cs : list (string * array)) (a : array) :
  getitem col cs = inr a -> exists k, In (k, a) cs.
Proof.
  induction cs as [ | [k b] cs IH ]; simpl; [ discriminate | ].
  destruct (String.eqb col k).
  - intros H. injection H as <-. eauto.
  - intros H. destruct (IH H) as [k' Hk]. eauto.
Qed.

Lemma getitem_length (col : string) (df : DataFrame) (a : array) :
  wf_frame df -> getitem col (cols df) = inr a ->
  length (tolist a) = nrows df.
Proof.
  intros Hwf H. destruct (getitem_In _ _ _ H) as [k Hk].
  unfold wf_frame in Hwf. rewrite Forall_forall in Hwf.
  apply (Hwf (k, a)). apply list_elem_of_In. exact Hk.
Qed.

Section Contains.
Context {K : Kernels}.

Lemma str_missing (cell : Py.value) :
  isna cell = true -> str_ cell = inr "None" \/ str_ cell = inr "nan".
Proof.
  destruct cell; simpl; try discriminate; intros H.
  - left. reflexivity.
  - right. rewrite H. reflexivity.
Qed.

Lemma filter_mask_contains df column value :
  filter_mask df column "contains" value
  = (series <- lift (getitem column (cols df)) ;;
     strings <- lift (astype_str series) ;;
     pat <- lift (str_ value) ;;
     lift (str_contains pat strings)).
Proof. reflexivity. Qed.

(** C5 (amended). Take an existing column of a stored (well-formed)
    table and a comparison value whose text [pat] holds no regular
    expression metacharacter.  When [astype(str)] renders the column, the
    [contains] filter returns without raising, and the rows it returns,
    in their order, are given by a mask that keeps a row whose cell is
    not missing exactly when the text of that cell has [pat] as a
    substring.  (Nothing is said of the rows whose cell is missing.) *)
Theorem filter_contains_literal (store : gmap string DataFrame)
  (name column : string) (value : Py.value) (df : DataFrame)
  (series : array) (strings : list string) (pat : string) :
  store !! name = Some df ->
  wf_frame df ->
  getitem column (cols df) = inr series ->
  astype_str series = inr strings ->
  str_ value = inr pat ->
  is_literal pat = true ->
  exists mask,
    Forall2 (fun cell kept =>
               notna cell = true ->
               exists s, str_ cell = inr s /\
                         (kept = true <-> occurs_in pat s))
      (tolist series) mask /\
    filter_data {| FilterRequest.dataset_name := name;
                   FilterRequest.column := column;
                   FilterRequest.operation := "contains";
                   FilterRequest.value := value |} store
    = (inr {| Filtered.data := compress mask (to_dict_records df);
              Filtered.total_rows :=
                Z.of_nat (length (List.filter (fun b : bool => b) mask)) |},
       store).
Proof.
  intros Hdf Hwf Hcol Hstr Hpat Hlit.
  pose proof (res_map_Forall2 _ _ _ Hstr) as Hcells.
  set (mask := map (contains pat) strings).
  exists mask. split.
  { unfold mask. clear -Hcells.
    induction Hcells as [ | cell s cells strings Hs _ IH ]; simpl;
      constructor; [ | exact IH ].
    intros _. exists s. split; [ exact Hs | apply contains_iff ]. }
  rewrite (filter_data_found store _ df);
    [ | exact Hdf | exact (getitem_has_column _ _ _ Hcol) ].
  cbn [FilterRequest.column FilterRequest.operation FilterRequest.value].
  rewrite filter_mask_contains.
  unfold try_except, bind, lift, ret.
  rewrite Hcol, Hstr, Hpat. unfold str_contains. rewrite Hlit.
  fold mask. rewrite (to_dict_records_mask mask df Hwf).
  unfold len, getitem_mask. cbn [nrows].
  rewrite count_compress_seq; [ reflexivity | ].
  unfold mask. rewrite length_map.
  rewrite <- (Forall2_length _ _ _ Hcells).
  exact (getitem_length _ _ _ Hwf Hcol).
Qed.

End Contains.

(** ** Type inference on a column that comes back *)

Lemma py_eq_refl (v : Py.value) : is_nan_cell v = false -> py_eq v v = true.
Proof.
  destruct v as [ | b | z | f | s ]; simpl; intros H; try reflexivity.
  - apply Z.eqb_refl.
  - apply Z.eqb_refl.
  - unfold is_nan in H. apply negb_false_iff in H. exact H.
  - apply String.eqb_refl.
Qed.

Lemma existsb_false_In {A} (p : A -> bool) (l : list A) (x : A) :
  existsb p l = false -> In x l -> p x = false.
Proof.
  intros He Hin. destruct (p x) eqn:E; [ | reflexivity ].
  assert (existsb p l = true) by (apply existsb_exists; eauto). congruence.
Qed.

Lemma forallb_In {A} (p : A -> bool) (l : list A) (x : A) :
  forallb p l = true -> In x l -> p x = true.
Proof. intros Hf Hin. rewrite forallb_forall in Hf. auto. Qed.

Lemma Forall2_map_self (g : Py.value -> Py.value) (l : list Py.value) :
  (forall v, In v l -> py_eq (g v) v = true) ->
  Forall2 (fun c v => py_eq c v = true) (map g l) l.
Proof.
  induction l as [ | x l IH ]; simpl; intros H; constructor; auto.
Qed.

(** What the typed buffers give back, cell by cell. *)
Lemma box_bool (v : Py.value) :
  is_none v = false -> is_str v = false -> is_int v = false ->
  is_float v = false -> py_eq (PyBool (as_bool v)) v = true.
Proof.
  destruct v as [ | b | z | f | s ]; simpl; try discriminate.
  intros _ _ _ _. apply Z.eqb_refl.
Qed.

Lemma box_int (v : Py.value) :
  is_none v = false -> is_str v = false -> is_bool v = false ->
  is_float v = false -> py_eq (PyInt (as_int v)) v = true.
Proof.
  destruct v as [ | b | z | f | s ]; simpl; try discriminate.
  intros _ _ _ _. apply Z.eqb_refl.
Qed.

Lemma box_float (v : Py.value) :
  is_none v = false -> is_nan_cell v = false -> is_str v = false ->
  is_bool v = false -> int_ok true v = true ->
  py_eq (PyFloat (as_float v)) v = true.
Proof.
  destruct v as [ | b | z | f | s ]; simpl; try discriminate.
  - intros _ _ _ _ H. apply andb_true_iff in H. destruct H as [_ H]. exact H.
  - intros _ H _ _ _. apply (py_eq_refl (PyFloat f) H).
Qed.

(** The scan of a column without NaN and without overflowing integer: it
    ends, and when it did not give up for [object] its flags tell which
    kinds of cells the column holds. *)
Lemma scan_flags (objects : list Py.value) :
  forall s,
    forallb (fun v => negb (is_nan_cell v)) objects = true ->
    forallb (int_ok false) objects = true ->
    exists s', scan s objects = inr s' /\
      nan_ s' = nan_ s /\
      (object_ s' = false ->
       null_ s' = null_ s || existsb is_none objects /\
       bool_ s' = bool_ s || existsb is_bool objects /\
       int_ s' = int_ s || existsb is_int objects /\
       float_ s' = float_ s || existsb is_float objects /\
       existsb is_str objects = false).
Proof.
  induction objects as [ | v objects IH ]; intros s Hna Hok.
  - exists s. simpl. rewrite !orb_false_r. repeat split; auto.
  - simpl in Hna, Hok. apply andb_true_iff in Hna. destruct Hna as [Hv Hna].
    apply andb_true_iff in Hok. destruct Hok as [Hz Hok].
    assert (Hstep : forall s1,
               nan_ s1 = nan_ s ->
               null_ s1 = null_ s || is_none v ->
               bool_ s1 = bool_ s || is_bool v ->
               int_ s1 = int_ s || is_int v ->
               float_ s1 = float_ s || is_float v ->
               is_str v = false ->
               exists s', scan s1 objects = inr s' /\
                 nan_ s' = nan_ s /\
                 (object_ s' = false ->
                  null_ s' = null_ s || existsb is_none (v :: objects) /\
                  bool_ s' = bool_ s || existsb is_bool (v :: objects) /\
                  int_ s' = int_ s || existsb is_int (v :: objects) /\
                  float_ s' = float_ s || existsb is_float (v :: objects) /\
                  existsb is_str (v :: objects) = false)).
    { intros s1 H1 Hn Hb Hi Hf Hs.
      destruct (IH s1 Hna Hok) as (s' & Hscan & Hn1 & Hfl).
      exists s'. split; [ exact Hscan | ]. split; [ congruence | ].
      intros H. destruct (Hfl H) as (En & Eb & Ei & Ef & Es). simpl.
      rewrite En, Eb, Ei, Ef, Es, Hn, Hb, Hi, Hf, Hs, !orb_assoc.
      repeat split; reflexivity. }
    destruct v as [ | b | z | f | str ]; cbn [scan].
    + apply Hstep; simpl; rewrite ?orb_false_r, ?orb_true_r; auto.
    + apply Hstep; simpl; rewrite ?orb_false_r, ?orb_true_r; auto.
    + simpl in Hz. rewrite andb_true_r in Hz. apply negb_true_iff in Hz.
      unfold int_to_double. rewrite Hz. cbn [res_bind].
      destruct (null_ s) eqn:Hnull.
      * apply Hstep; simpl; rewrite ?Hnull, ?orb_false_r, ?orb_true_r; auto.
      * destruct (_ || _ || _).
        -- eexists. split; [ reflexivity | ]. simpl.
           split; [ reflexivity | discriminate ].
        -- apply Hstep; simpl; rewrite ?Hnull, ?orb_false_r, ?orb_true_r; auto.
    + simpl in Hv. apply negb_true_iff in Hv. rewrite Hv.
      apply Hstep; simpl; rewrite ?orb_false_r, ?orb_true_r; auto.
    + eexists. split; [ reflexivity | ]. simpl.
      split; [ reflexivity | discriminate ].
Qed.

Lemma int_ok_weaken (with_float : bool) (v : Py.value) :
  int_ok with_float v = true -> int_ok false v = true.
Proof.
  destruct v; simpl; auto. rewrite andb_true_r.
  intros H. apply andb_true_iff in H. tauto.
Qed.

Lemma forallb_impl {A} (p q : A -> bool) (l : list A) :
  (forall x, p x = true -> q x = true) ->
  forallb p l = true -> forallb q l = true.
Proof.
  intros Hpq. rewrite !forallb_forall. auto.
Qed.

Lemma notna_no_none (objects : list Py.value) :
  forallb notna objects = true -> existsb is_none objects = false.
Proof.
  induction objects as [ | v objects IH ]; simpl; [ reflexivity | ].
  intros H. apply andb_true_iff in H. destruct H as [Hv H].
  rewrite (IH H). destruct v; try reflexivity. discriminate Hv.
Qed.

(** Type inference gives every cell of a surviving column back, equal to
    what went in. *)
Lemma maybe_convert_survivor (objects : list Py.value) :
  survives objects = true ->
  exists a, maybe_convert_objects objects = inr a /\
    Forall2 (fun c v => py_eq c v = true) (tolist a) objects.
Proof.
  unfold survives. intros H. apply andb_true_iff in H. destruct H as [H Hnum].
  apply andb_true_iff in H. destruct H as [Hnan Hok].
  destruct (scan_flags objects seen_nothing Hnan Hok)
    as (s & Hscan & Hn & Hflags).
  assert (Hcell : forall v, In v objects -> is_nan_cell v = false).
  { intros v Hv. apply negb_true_iff. apply (forallb_In _ _ _ Hnan Hv). }
  assert (Hrefl : Forall2 (fun c v => py_eq c v = true) objects objects).
  { apply Forall_Forall2_diag. apply Forall_forall. intros v Hv.
    apply py_eq_refl. apply Hcell. apply list_elem_of_In. exact Hv. }
  exists (finish s objects). split.
  { unfold maybe_convert_objects. rewrite Hscan. reflexivity. }
  unfold finish. rewrite Hn.
  destruct (object_ s) eqn:Hobj; [ exact Hrefl | ].
  destruct (Hflags eq_refl) as (Hnull & Hb & Hi & Hf & Hs).
  simpl in Hnull, Hb, Hi, Hf. rewrite Hnull, Hb, Hi, Hf.
  unfold numeric in Hnum. rewrite Hs in Hnum. simpl in Hnum.
  rewrite andb_true_r in Hnum. simpl.
  destruct (existsb is_bool objects) eqn:Eb.
  - destruct (existsb is_none objects) eqn:En; [ exact Hrefl | ].
    destruct (existsb is_int objects) eqn:Ei; [ exact Hrefl | ].
    destruct (existsb is_float objects) eqn:Ef; [ exact Hrefl | ].
    simpl. rewrite map_map. apply Forall2_map_self. intros v Hv.
    apply box_bool; eauto using existsb_false_In.
  - rewrite andb_true_r in Hnum.
    destruct (existsb is_int objects || existsb is_float objects) eqn:Eif.
    + simpl in Hnum. apply andb_true_iff in Hnum. destruct Hnum as [Hna Hsafe].
      rewrite (notna_no_none _ Hna). simpl.
      pose proof (notna_no_none _ Hna) as En.
      destruct (existsb is_float objects) eqn:Ef.
      * simpl. rewrite map_map. apply Forall2_map_self. intros v Hv.
        apply box_float; eauto using forallb_In, existsb_false_In.
      * rewrite orb_false_r in Eif. rewrite Eif.
        assert (Hints : Forall2 (fun c v => py_eq c v = true)
                          (map PyInt (map as_int objects)) objects).
        { rewrite map_map. apply Forall2_map_self. intros v Hv.
          apply box_int; eauto using existsb_false_In. }
        destruct (uint_ s); exact Hints.
    + apply orb_false_iff in Eif. destruct Eif as [Ei Ef]. rewrite Ei, Ef.
      destruct (existsb is_none objects); exact Hrefl.
Qed.

(** ** The columns of a rectangular upload *)

Lemma existsb_eqb_In (k : string) (u : list string) :
  existsb (String.eqb k) u = true <-> In k u.
Proof.
  rewrite existsb_exists. split.
  - intros (x & Hx & E). apply String.eqb_eq in E. subst. exact Hx.
  - intros H. exists k. split; [ exact H | apply String.eqb_refl ].
Qed.

Lemma fold_add_unique_fresh (l u : list string) :
  List.NoDup (u ++ l) -> fold_left add_unique l u = u ++ l.
Proof.
  revert u. induction l as [ | k l IH ]; intros u Hnd; simpl.
  - rewrite app_nil_r. reflexivity.
  - assert (Hk : existsb (String.eqb k) u = false).
    { destruct (existsb (String.eqb k) u) eqn:E; [ | reflexivity ].
      apply existsb_eqb_In in E. apply NoDup_remove_2 in Hnd.
      exfalso. apply Hnd. apply in_or_app. auto. }
    unfold add_unique at 2. rewrite Hk.
    rewrite IH; rewrite <- app_assoc; [ reflexivity | exact Hnd ].
Qed.

Lemma fold_add_unique_known (l u : list string) :
  (forall k, In k l -> In k u) -> fold_left add_unique l u = u.
Proof.
  revert u. induction l as [ | k l IH ]; intros u H; simpl; [ reflexivity | ].
  assert (Hk : existsb (String.eqb k) u = true)
    by (apply existsb_eqb_In; apply H; simpl; auto).
  unfold add_unique at 2. rewrite Hk. apply IH. intros k' Hk'. apply H. simpl. auto.
Qed.

Lemma fast_unique_rect (keys : list string) (row : record) (rows : list record) :
  List.NoDup keys ->
  Forall (fun r => Permutation (map fst r) keys) (row :: rows) ->
  fast_unique (row :: rows) = map fst row.
Proof.
  intros Hnd Hall. inversion Hall as [ | ? ? Hrow Hrows ]; subst.
  unfold fast_unique. cbn [fold_left].
  rewrite (fold_add_unique_fresh (map fst row) []).
  2: { simpl. eapply Permutation_NoDup; [ symmetry; exact Hrow | exact Hnd ]. }
  simpl. induction Hrows as [ | r rows Hr Hrows IH ]; simpl; [ reflexivity | ].
  rewrite fold_add_unique_known; [ apply IH | ].
  - constructor; assumption.
  - intros k Hk. eapply Permutation_in; [ symmetry; exact Hrow | ].
    eapply Permutation_in; [ exact Hr | exact Hk ].
Qed.

Lemma res_map_ok {A B} (f : A -> res B) (P : A -> B -> Prop) (l : list A) :
  (forall a, In a l -> exists b, f a = inr b /\ P a b) ->
  exists bs, res_map f l = inr bs /\ Forall2 P l bs.
Proof.
  induction l as [ | a l IH ]; intros H; simpl.
  - exists []. split; [ reflexivity | constructor ].
  - destruct (H a) as (b & Hb & Pb); [ simpl; auto | ].
    destruct IH as (bs & Hbs & Pbs); [ intros a' Ha'; apply H; simpl; auto | ].
    exists (b :: bs). rewrite Hb, Hbs. split; [ reflexivity | constructor; auto ].
Qed.

Lemma dict_get_In (k : string) (row : record) :
  In k (map fst row) -> exists v, dict_get k row = Some v.
Proof.
  induction row as [ | [k' v] row IH ]; simpl; [ intros [] | ].
  destruct (String.eqb k k') eqn:E; [ eauto | ].
  intros [H | H]; [ | auto ].
  apply String.eqb_neq in E. congruence.
Qed.

Lemma DataFrame_rect (keys : list string) (rows : list record) :
  rectangular keys rows ->
  (forall k, In k keys -> survives (dicts_to_array rows k) = true) ->
  exists cs,
    DataFrame_ rows = inr {| nrows := length rows; cols := cs |} /\
    (rows <> [] -> Permutation (map fst cs) keys) /\
    (rows = [] -> cs = []) /\
    Forall (fun c => Forall2 (fun x v => py_eq x v = true)
                       (tolist (snd c)) (dicts_to_array rows (fst c))) cs.
Proof.
  intros (Hne & Hnd & Hall) Hsurv. unfold DataFrame_.
  destruct rows as [ | row rows ].
  - exists []. repeat split; auto. intros H. contradiction.
  - rewrite (fast_unique_rect keys row rows Hnd Hall).
    assert (Hrow : Permutation (map fst row) keys) by (inversion Hall; assumption).
    destruct (res_map_ok
                (fun k => res_bind (maybe_convert_objects
                                      (dicts_to_array (row :: rows) k))
                            (fun a => inr (k, a)))
                (fun k c => fst c = k /\
                            Forall2 (fun x v => py_eq x v = true)
                              (tolist (snd c)) (dicts_to_array (row :: rows) k))
                (map fst row)) as (cs & Hcs & Hrel).
    { intros k Hk.
      destruct (maybe_convert_survivor (dicts_to_array (row :: rows) k))
        as (a & Ha & Hcells).
      { apply Hsurv. eapply Permutation_in; [ exact Hrow | exact Hk ]. }
      exists (k, a). rewrite Ha. simpl. auto. }
    exists cs. rewrite Hcs. cbn [res_bind].
    assert (Hkeys : map fst cs = map fst row).
    { clear -Hrel. induction Hrel as [ | k c ks cs [Hk _] _ IH ]; simpl;
        [ reflexivity | rewrite Hk, IH; reflexivity ]. }
    split; [ reflexivity | ]. split; [ | split ].
    + intros _. rewrite Hkeys. exact Hrow.
    + discriminate.
    + clear -Hrel. induction Hrel as [ | k c ks cs [Hk Hc] _ IH ];
        constructor; [ rewrite Hk; exact Hc | exact IH ].
Qed.

(** ** Records of the whole table *)

Lemma tolist_firstn (n : nat) (a : array) :
  tolist (array_map_rows (fun A => firstn n) a) = firstn n (tolist a).
Proof. destruct a; simpl; auto using firstn_map. Qed.

Lemma slice_stop_all (n : nat) : slice_stop (Z.of_nat n) n = n.
Proof.
  unfold slice_stop. destruct (0 <=? Z.of_nat n) eqn:E.
  - rewrite Nat2Z.id. apply Nat.min_id.
  - apply Z.leb_gt in E. lia.
Qed.

Lemma to_dict_records_head_all (df : DataFrame) :
  wf_frame df ->
  to_dict_records (head (len df) df) = to_dict_records df.
Proof.
  intros Hwf. unfold wf_frame in Hwf. unfold to_dict_records, head, len.
  cbn [cols nrows]. rewrite slice_stop_all.
  destruct (cols df) as [ | c cs ]; [ reflexivity | ].
  cbn [map]. unfold tuples. apply map_ext. intros i.
  rewrite <- (map_cons (fun c => (fst c, array_map_rows (fun A => firstn (nrows df)) (snd c)))).
  rewrite map_map. apply map_ext_in. intros [k a] Hka. simpl.
  rewrite tolist_firstn. rewrite Forall_forall in Hwf.
  rewrite firstn_all2; [ reflexivity | ].
  specialize (Hwf (k, a)). simpl in Hwf. rewrite Hwf; [ lia | ].
  apply list_elem_of_In. exact Hka.
Qed.

Lemma lookup_map {A B} (f : A -> B) (l : list A) (i : nat) :
  map f l !! i = option_map f (l !! i).
Proof.
  revert i. induction l as [ | x l IH ]; intros [ | i ]; simpl; auto.
Qed.

Lemma forallb_combine_seq {A B} (f : nat -> A) (P : A * B -> bool)
  (l : list B) (s : nat) :
  (forall i b, l !! i = Some b -> P (f (s + i)%nat, b) = true) ->
  forallb P (combine (map f (seq s (length l))) l) = true.
Proof.
  revert s. induction l as [ | b l IH ]; intros s H; simpl; [ reflexivity | ].
  apply andb_true_iff. split.
  - specialize (H O b eq_refl). rewrite Nat.add_0_r in H. exact H.
  - apply IH. intros i b' Hi. specialize (H (S i) b' Hi).
    rewrite Nat.add_succ_r in H. exact H.
Qed.

(** The records of a frame whose cells equal those of the upload are
    equal to the upload, row by row. *)
Lemma tuples_records_eq (keys : list string) (cs : list (string * array))
  (rows : list record) :
  Permutation (map fst cs) keys ->
  Forall (fun r => Permutation (map fst r) keys) rows ->
  Forall (fun c => Forall2 (fun x v => py_eq x v = true)
                     (tolist (snd c)) (dicts_to_array rows (fst c))) cs ->
  records_eq (tuples cs (length rows)) rows = true.
Proof.
  intros Hcs Hrows Hcells. unfold records_eq. apply andb_true_iff. split.
  { unfold tuples. rewrite length_map, length_seq. apply Nat.eqb_refl. }
  unfold tuples. apply forallb_combine_seq. intros i row Hi. simpl.
  assert (Hrow : Permutation (map fst row) keys).
  { rewrite Forall_forall in Hrows. apply Hrows.
    apply list_elem_of_lookup. eauto. }
  unfold dict_eq. apply andb_true_iff. split.
  { rewrite length_map. apply Nat.eqb_eq.
    rewrite <- (length_map fst cs), <- (length_map fst row).
    rewrite (Permutation_length Hcs), (Permutation_length Hrow). reflexivity. }
  rewrite forallb_forall. intros kv Hkv. apply in_map_iff in Hkv.
  destruct Hkv as ([k a] & <- & Hka). simpl.
  destruct (dict_get_In k row) as [v Hv].
  { eapply Permutation_in; [ symmetry; exact Hrow | ].
    eapply Permutation_in; [ exact Hcs | ].
    apply in_map_iff. exists (k, a). auto. }
  rewrite Hv.
  rewrite Forall_forall in Hcells. specialize (Hcells (k, a)). simpl in Hcells.
  assert (Hobj : dicts_to_array rows k !! i = Some v).
  { unfold dicts_to_array. rewrite lookup_map, Hi. simpl. rewrite Hv. reflexivity. }
  destruct (Forall2_lookup_r _ _ _ _ _ (Hcells ltac:(apply list_elem_of_In; exact Hka)) Hobj)
    as (x & Hx & Hxv).
  rewrite (nth_lookup_Some _ _ PyNone _ Hx). exact Hxv.
Qed.

Lemma DataFrame_rect_wf (rows : list record) (cs : list (string * array)) :
  Forall (fun c => Forall2 (fun x v => py_eq x v = true)
                     (tolist (snd c)) (dicts_to_array rows (fst c))) cs ->
  wf_frame {| nrows := length rows; cols := cs |}.
Proof.
  unfold wf_frame. cbn [cols nrows]. intros H.
  eapply Forall_impl; [ exact H | ]. intros c Hc. cbn beta in Hc.
  rewrite (Forall2_length _ _ _ Hc). unfold dicts_to_array. apply length_map.
Qed.

(** ** Create, then fetch *)

(** C4 (amended). Round trip.  Take rows over one non-empty set of
    keys in which no cell is NaN and every integer converts to a double
    without overflow, and such that every column of numbers (one that
    holds an integer or a float, and neither a boolean nor a string)
    holds no null and, if it holds a float, only integers exactly
    representable as doubles.  Then [create(name, rows)] followed by
    [get(name, limit=len(rows))] returns records equal to [rows] under
    Python's [==], in upload order.  Nulls in the other columns (of
    text, of booleans, of nulls only) come back as they went in. *)
Theorem create_get_roundtrip (store : gmap string DataFrame) (name : string)
  (keys : list string) (rows : list record) :
  rectangular keys rows ->
  (forall k, In k keys -> survives (dicts_to_array rows k) = true) ->
  exists created fetched store',
    create_dataset {| DataUpload.name := name; DataUpload.data := rows |} store
    = (inr created, store') /\
    get_dataset name (given (Some (Z.of_nat (length rows)))) store'
    = (inr fetched, store') /\
    records_eq (Fetched.data fetched) rows = true.
Proof.
  intros Hrect Hsurv.
  destruct (DataFrame_rect keys rows Hrect Hsurv)
    as (cs & Hdf & Hperm & Hempty & Hcells).
  destruct Hrect as (Hne & Hnd & Hall).
  set (df := {| nrows := length rows; cols := cs |}) in *.
  destruct (create_dataset_binds store name rows df Hdf)
    as (created & Hcreate & Hlook & _).
  exists created. eexists. exists (<[name := df]> store).
  split; [ exact Hcreate | ].
  split; [ apply (get_dataset_found _ name df _ Hlook) | ].
  cbn [Fetched.data or_default].
  destruct rows as [ | row rows ].
  - simpl. unfold df. rewrite (Hempty eq_refl). reflexivity.
  - assert (Hn : (Z.of_nat (length (row :: rows)) =? 0) = false)
      by (apply Z.eqb_neq; simpl; lia).
    rewrite Hn. cbn [negb].
    change (Z.of_nat (length (row :: rows))) with (len df).
    rewrite (to_dict_records_head_all df (DataFrame_rect_wf _ _ Hcells)).
    specialize (Hperm ltac:(discriminate)).
    unfold to_dict_records. cbn [cols nrows df].
    destruct cs as [ | c cs ].
    + apply Permutation_nil in Hperm. congruence.
    + apply (tuples_records_eq keys); assumption.
Qed.

(** ** Runs on concrete stores *)

(** C1 as stated fails: the upload of two records without keys is
    stored as a table of two rows and no column, and with [limit = 0]
    the handler returns no record of it, beside a [total_rows] of 2. *)
Lemma limit_zero_returns_no_row :
  let store :=
    snd (create_dataset {| DataUpload.name := "e";
                           DataUpload.data := rows_without_keys |}
           data_store) in
  store !! "e" = Some {| nrows := 2; cols := [] |} /\
  get_dataset "e" (given (Some 0)) store
  = (inr {| Fetched.data := [];
            Fetched.columns := [];
            Fetched.total_rows := 2;
            Fetched.dtypes := [] |}, store).
Proof.
  split; vm_compute; reflexivity.
Qed.

(** C1 (amended), on the seeded store. *)
Lemma get_dataset_limit_witness :
  data_store !! "sample" = Some sample_frame /\
  exists r, get_dataset "sample" omitted data_store = (inr r, data_store) /\
    (length (Fetched.data r) <= 100)%nat /\ Fetched.total_rows r = 5.
Proof.
  assert (H : data_store !! "sample" = Some sample_frame)
    by (vm_compute; reflexivity).
  split; [ exact H | ].
  destruct (get_dataset_limit data_store "sample" sample_frame H)
    as [[_ (r & Hr & _ & Hlen & Htot)] _].
  exists r. split; [ exact Hr | ]. split; [ exact Hlen | exact Htot ].
Defined.

(** C3, on the seeded store with the tag "avg". *)
Lemma unknown_operation_rejected_witness :
  filter_data (K := no_kernels)
    {| FilterRequest.dataset_name := "sample";
       FilterRequest.column := "age";
       FilterRequest.operation := "avg";
       FilterRequest.value := PyInt 30 |} data_store
  = (inl invalid_operation_error, data_store) /\
  aggregate_data (K := no_kernels)
    {| AggregateRequest.dataset_name := "sample";
       AggregateRequest.column := "age";
       AggregateRequest.operation := "avg" |} data_store
  = (inl invalid_operation_error, data_store).
Proof.
  assert (H : data_store !! "sample" = Some sample_frame)
    by (vm_compute; reflexivity).
  assert (Hc : has_column "age" sample_frame = true) by reflexivity.
  destruct (unknown_operation_rejected (K := no_kernels) data_store "sample"
              "age" "avg" (PyInt 30) sample_frame H Hc) as [Hf Ha].
  split; [ apply Hf | apply Ha ]; simpl; intros Hin;
    repeat (destruct Hin as [Hin | Hin]; [ discriminate Hin | ]); exact Hin.
Defined.

(** C9, replacing the seeded dataset. *)
Lemma create_dataset_binds_witness :
  exists df created,
    DataFrame_ null_under_text = inr df /\
    data_store !! "sample" = Some sample_frame /\
    create_dataset {| DataUpload.name := "sample";
                      DataUpload.data := null_under_text |} data_store
    = (inr created, <["sample" := df]> data_store) /\
    (<["sample" := df]> data_store) !! "sample" = Some df.
Proof.
  eexists. 
  assert (H : DataFrame_ null_under_text
              = inr {| nrows := 2;
                       cols := [("tag", ObjectArray [PyStr "x"; PyNone])] |})
    by reflexivity.
  destruct (create_dataset_binds data_store "sample" null_under_text _ H)
    as (created & Hc & Hl & _).
  exists created. split; [ exact H | ].
  split; [ vm_compute; reflexivity | ]. split; [ exact Hc | exact Hl ].
Defined.

(** C10, replacing the seeded dataset fails and leaves it in place. *)
Lemma create_dataset_atomic_witness :
  DataFrame_ huge_integer
  = inl (OverflowError "int too large to convert to float") /\
  create_dataset {| DataUpload.name := "sample";
                    DataUpload.data := huge_integer |} data_store
  = (inl (HTTPException 400
            (str_exn (OverflowError "int too large to convert to float"))),
     data_store).
Proof.
  assert (H : DataFrame_ huge_integer
              = inl (OverflowError "int too large to convert to float"))
    by (vm_compute; reflexivity).
  split; [ exact H | ].
  exact (create_dataset_atomic data_store "sample" huge_integer _ H).
Defined.

(** C6, on a column whose two cells are missing: the mean is NaN and the
    handler answers with the absent value. *)
Lemma aggregate_missing_result_is_null_witness :
  let store :=
    snd (create_dataset {| DataUpload.name := "m";
                           DataUpload.data := all_missing |} data_store) in
  store !! "m"
  = Some {| nrows := 2;
            cols := [("a", Float64Array [nan; nan]); ("b", Int64Array [1; 2])] |} /\
  aggregate_data (K := no_kernels)
    {| AggregateRequest.dataset_name := "m";
       AggregateRequest.column := "a";
       AggregateRequest.operation := "mean" |} store
  = (inr {| Aggregated.column := "a";
            Aggregated.operation := "mean";
            Aggregated.result := None |}, store).
Proof.
  intros store.
  assert (H : store !! "m"
              = Some {| nrows := 2;
                        cols := [("a", Float64Array [nan; nan]);
                                 ("b", Int64Array [1; 2])] |})
    by (vm_compute; reflexivity).
  split; [ exact H | ].
  apply (aggregate_missing_result_is_null (K := no_kernels) store
           {| AggregateRequest.dataset_name := "m";
              AggregateRequest.column := "a";
              AggregateRequest.operation := "mean" |} _ (PyFloat nan) H);
    reflexivity.
Defined.

(** What [float] reads: a text of digits in another script, or with a
    no-break space after it; not a text with an information separator
    (byte 28) after the digit, which only [str.strip] would remove. *)
Example float_of_text :
  parse_float " 1_0.5e1 " = Some 105%float /\
  parse_float (String "217" (String "161" (String "217" (String "162" EmptyString))))
  = Some 12%float /\
  parse_float (String "1" (String "194" (String "160" EmptyString)))
  = Some 1%float /\
  parse_float (String "1" (String "028" EmptyString)) = None /\
  parse_float "Alice" = None.
Proof.
  repeat split; vm_compute; reflexivity.
Qed.

(** The minimum of the two zeros is the later one. *)
Example min_of_zeros :
  Pd.min (Float64Array [(- 0)%float; 0%float]) = inr (PyFloat 0%float).
Proof.
  vm_compute. reflexivity.
Qed.

(** C2 (amended), on the seeded store. *)
Lemma aggregate_minmax_text_witness :
  exists m, In m ["Alice"; "Bob"; "Charlie"; "Diana"; "Eve"] /\
    aggregate_data (K := no_kernels)
      {| AggregateRequest.dataset_name := "sample";
         AggregateRequest.column := "name";
         AggregateRequest.operation := "min" |} data_store
    = (match parse_float m with
       | Some f => inr {| Aggregated.column := "name";
                          Aggregated.operation := "min";
                          Aggregated.result := Some f |}
       | None => inl (HTTPException 400
                        (str_exn (ValueError "could not convert string to float"
                                    [PyStr m])))
       end, data_store).
Proof.
  assert (H : data_store !! "sample" = Some sample_frame)
    by (vm_compute; reflexivity).
  destruct (aggregate_minmax_text (K := no_kernels) data_store "sample" "name"
              sample_frame ["Alice"; "Bob"; "Charlie"; "Diana"; "Eve"] false
              H eq_refl ltac:(discriminate)) as (m & Hin & _ & Hm).
  exists m. split; [ exact Hin | exact Hm ].
Defined.

(** C2 as stated fails: on the seeded store, column [name] is a column
    of strings, yet its minimum is refused with status 400, because
    "Alice" is no float literal. *)
Lemma text_minimum_is_refused :
  getitem "name" (cols sample_frame)
  = inr (ObjectArray (map PyStr ["Alice"; "Bob"; "Charlie"; "Diana"; "Eve"])) /\
  data_store !! "sample" = Some sample_frame /\
  aggregate_data (K := no_kernels)
    {| AggregateRequest.dataset_name := "sample";
       AggregateRequest.column := "name";
       AggregateRequest.operation := "min" |} data_store
  = (inl (HTTPException 400
            (str_exn (ValueError "could not convert string to float"
                        [PyStr "Alice"]))), data_store).
Proof.
  split; [ reflexivity | ]. split; vm_compute; reflexivity.
Qed.

Lemma sample_frame_wf : wf_frame sample_frame.
Proof. repeat constructor. Qed.

(** C5 (amended), on the seeded store with the text "li". *)
Lemma filter_contains_literal_witness :
  exists mask,
    filter_data (K := no_kernels)
      {| FilterRequest.dataset_name := "sample";
         FilterRequest.column := "name";
         FilterRequest.operation := "contains";
         FilterRequest.value := PyStr "li" |} data_store
    = (inr {| Filtered.data := compress mask (to_dict_records sample_frame);
              Filtered.total_rows :=
                Z.of_nat (length (List.filter (fun b : bool => b) mask)) |},
       data_store).
Proof.
  assert (H : data_store !! "sample" = Some sample_frame)
    by (vm_compute; reflexivity).
  destruct (filter_contains_literal (K := no_kernels) data_store "sample" "name"
              (PyStr "li") sample_frame
              (ObjectArray (map PyStr ["Alice"; "Bob"; "Charlie"; "Diana"; "Eve"]))
              ["Alice"; "Bob"; "Charlie"; "Diana"; "Eve"] "li"
              H sample_frame_wf eq_refl eq_refl eq_refl eq_refl)
    as (mask & _ & Hm).
  exists mask. exact Hm.
Defined.

(** C5 as stated fails: the value is compiled as a regular expression.
    No name of the seeded table has "." as a substring, yet with the
    value "." the filter keeps all five rows, since the pattern [.]
    matches any character. *)
Lemma contains_reads_value_as_pattern :
  data_store !! "sample" = Some sample_frame /\
  getitem "name" (cols sample_frame)
  = inr (ObjectArray (map PyStr ["Alice"; "Bob"; "Charlie"; "Diana"; "Eve"])) /\
  forallb (fun s => negb (contains "." s))
    ["Alice"; "Bob"; "Charlie"; "Diana"; "Eve"] = true /\
  filter_data (K := wildcard_kernels)
    {| FilterRequest.dataset_name := "sample";
       FilterRequest.column := "name";
       FilterRequest.operation := "contains";
       FilterRequest.value := PyStr "." |} data_store
  = (inr {| Filtered.data := to_dict_records sample_frame;
            Filtered.total_rows := 5 |}, data_store).
Proof.
  split; [ vm_compute; reflexivity | ].
  split; [ reflexivity | ].
  split; vm_compute; reflexivity.
Qed.

(** What happens to a missing cell under [contains]: [astype(str)] turns
    the null of the second row into the text "None", in which "on"
    occurs, and the filter keeps that row, although the call passes
    [na=False]. *)
Example contains_keeps_null_cell :
  let store :=
    snd (create_dataset {| DataUpload.name := "t";
                           DataUpload.data := null_under_text |} data_store) in
  store !! "t"
  = Some {| nrows := 2; cols := [("tag", ObjectArray [PyStr "x"; PyNone])] |} /\
  filter_data (K := no_kernels)
    {| FilterRequest.dataset_name := "t";
       FilterRequest.column := "tag";
       FilterRequest.operation := "contains";
       FilterRequest.value := PyStr "on" |} store
  = (inr {| Filtered.data := [[("tag", PyNone)]];
            Filtered.total_rows := 1 |}, store).
Proof.
  split; vm_compute; reflexivity.
Qed.

(** C4 as stated fails: these rows are scalar and rectangular, yet the
    null under the number comes back as NaN (and the integer as a
    float), and the records fetched are not equal to the upload. *)
Lemma roundtrip_loses_null :
  let store :=
    snd (create_dataset {| DataUpload.name := "t";
                           DataUpload.data := null_under_number |} data_store) in
  rectangular ["a"] null_under_number /\
  exists fetched,
    get_dataset "t" (given (Some (Z.of_nat (length null_under_number)))) store
    = (inr fetched, store) /\
    Fetched.data fetched = [[("a", PyFloat 1)]; [("a", PyFloat nan)]] /\
    records_eq (Fetched.data fetched) null_under_number = false.
Proof.
  split.
  - split; [ discriminate | ]. split.
    + constructor; [ intros [] | constructor ].
    + repeat constructor.
  - eexists. split; [ vm_compute; reflexivity | ].
    split; vm_compute; reflexivity.
Qed.

(** The other conditions are needed too.  2^53 + 1 under a float comes
    back rounded. *)
Example roundtrip_rounds_integer :
  let rows := [[("a", PyInt (2 ^ 53 + 1))]; [("a", PyFloat 0.5)]] in
  let store :=
    snd (create_dataset {| DataUpload.name := "t"; DataUpload.data := rows |}
           data_store) in
  exists fetched,
    get_dataset "t" (given (Some 2)) store = (inr fetched, store) /\
    Fetched.data fetched
    = [[("a", PyFloat 9007199254740992)]; [("a", PyFloat 0.5)]] /\
    records_eq (Fetched.data fetched) rows = false.
Proof.
  eexists. split; [ vm_compute; reflexivity | ].
  split; vm_compute; reflexivity.
Qed.

(** A NaN comes back as a NaN, which is not equal to itself. *)
Example roundtrip_loses_nan :
  let rows := [[("a", PyFloat nan)]] in
  let store :=
    snd (create_dataset {| DataUpload.name := "t"; DataUpload.data := rows |}
           data_store) in
  exists fetched,
    get_dataset "t" (given (Some 1)) store = (inr fetched, store) /\
    Fetched.data fetched = [[("a", PyFloat nan)]] /\
    records_eq (Fetched.data fetched) rows = false.
Proof.
  eexists. split; [ vm_compute; reflexivity | ].
  split; vm_compute; reflexivity.
Qed.

(** Records without keys do not come back at all. *)
Example roundtrip_loses_rows_without_keys :
  let store :=
    snd (create_dataset {| DataUpload.name := "t";
                           DataUpload.data := rows_without_keys |}
           data_store) in
  exists fetched,
    get_dataset "t" (given (Some 2)) store = (inr fetched, store) /\
    Fetched.data fetched = [] /\
    records_eq (Fetched.data fetched) rows_without_keys = false.
Proof.
  eexists. split; [ vm_compute; reflexivity | ].
  split; vm_compute; reflexivity.
Qed.

(** A column of numbers and nulls comes back when it also holds a
    string, since it is then stored as it is. *)
Example roundtrip_keeps_null_beside_text :
  survives [PyInt 1; PyNone; PyStr "x"] = true /\
  maybe_convert_objects [PyInt 1; PyNone; PyStr "x"]
  = inr (ObjectArray [PyInt 1; PyNone; PyStr "x"]).
Proof.
  split; vm_compute; reflexivity.
Qed.

(** C4 (amended), on rows with nulls under a text and under a boolean. *)
Lemma create_get_roundtrip_witness :
  exists created fetched store',
    create_dataset {| DataUpload.name := "copy";
                      DataUpload.data := nulls_beside_numbers |} data_store
    = (inr created, store') /\
    get_dataset "copy" (given (Some 2)) store' = (inr fetched, store') /\
    records_eq (Fetched.data fetched) nulls_beside_numbers = true.
Proof.
  apply (create_get_roundtrip data_store "copy"
           ["tag"; "ok"; "n"] nulls_beside_numbers).
  - split; [ discriminate | ]. split.
    + repeat (constructor;
              [ simpl; intros Hin;
                repeat (destruct Hin as [Hin | Hin]; [ discriminate Hin | ]);
                exact Hin | ]).
      constructor.
    + repeat constructor.
  - intros k Hk. simpl in Hk.
    repeat (destruct Hk as [<- | Hk]; [ vm_compute; reflexivity | ]).
    destruct Hk.
Defined.

(** The same on the seeded records, uploaded under a new name. *)
Example roundtrip_sample_data :
  exists fetched store',
    get_dataset "copy" (given (Some 5))
      (snd (create_dataset {| DataUpload.name := "copy";
                              DataUpload.data := sample_data |} data_store))
    = (inr fetched, store') /\
    records_eq (Fetched.data fetched) sample_data = true.
Proof.
  eexists. eexists. split; vm_compute; reflexivity.
Qed.

(** * Further properties of the handlers *)

(** ** Unknown names and columns *)

Lemma lookup_absent (store : gmap string DataFrame) name :
  store !! name = None ->
  store_contains name store = (inr false, store).
Proof.
  intros H. unfold store_contains.
  rewrite bool_decide_eq_false_2; [ reflexivity | ].
  rewrite H. intros [x Hx]. discriminate.
Qed.

Section Lookups.
Context {K : Kernels}.

(** X2. A name that is not in the store makes [get_dataset],
    [delete_dataset], [filter_data] and [aggregate_data] raise the same
    [HTTPException] with status 404 and text "Dataset not found",
    whatever the other arguments are; the store is left as it is. *)
Theorem unknown_dataset_not_found (store : gmap string DataFrame)
  (name : string) :
  store !! name = None ->
  (forall limit, get_dataset name limit store = (inl dataset_not_found, store)) /\
  delete_dataset name store = (inl dataset_not_found, store) /\
  (forall column operation value,
     filter_data {| FilterRequest.dataset_name := name;
                    FilterRequest.column := column;
                    FilterRequest.operation := operation;
                    FilterRequest.value := value |} store
     = (inl dataset_not_found, store)) /\
  (forall column operation,
     aggregate_data {| AggregateRequest.dataset_name := name;
                       AggregateRequest.column := column;
                       AggregateRequest.operation := operation |} store
     = (inl dataset_not_found, store)).
Proof.
  intros H. pose proof (lookup_absent store name H) as Hc.
  repeat split; intros.
  - unfold get_dataset, bind at 1. cbv beta. rewrite Hc. reflexivity.
  - unfold delete_dataset, bind at 1. cbv beta. rewrite Hc. reflexivity.
  - unfold filter_data, bind at 1. cbn [FilterRequest.dataset_name].
    rewrite Hc. reflexivity.
  - unfold aggregate_data, bind at 1. cbn [AggregateRequest.dataset_name].
    rewrite Hc. reflexivity.
Qed.

(** X3. On an existing dataset, a column that the table does not have
    makes [filter_data] and [aggregate_data] raise an [HTTPException]
    with status 400 whose detail names the column.  The check comes
    before the operation tag is looked at, so this is the answer for an
    unknown tag too; the store is left as it is. *)
Theorem unknown_column_rejected (store : gmap string DataFrame)
  (name column : string) (df : DataFrame) :
  store !! name = Some df ->
  has_column column df = false ->
  let error :=
    HTTPException 400 (Text ("Column '" +:+ column +:+ "' not found")) in
  (forall operation value,
     filter_data {| FilterRequest.dataset_name := name;
                    FilterRequest.column := column;
                    FilterRequest.operation := operation;
                    FilterRequest.value := value |} store
     = (inl error, store)) /\
  (forall operation,
     aggregate_data {| AggregateRequest.dataset_name := name;
                       AggregateRequest.column := column;
                       AggregateRequest.operation := operation |} store
     = (inl error, store)).
Proof.
  intros Hdf Hcol error. destruct (lookup_present _ _ _ Hdf) as [Hc Hg].
  split; intros.
  - unfold filter_data, bind at 1.
    cbn [FilterRequest.dataset_name FilterRequest.column].
    rewrite Hc. cbn [negb].
    unfold bind at 1. rewrite Hg. rewrite Hcol. reflexivity.
  - unfold aggregate_data, bind at 1.
    cbn [AggregateRequest.dataset_name AggregateRequest.column].
    rewrite Hc. cbn [negb].
    unfold bind at 1. rewrite Hg. rewrite Hcol. reflexivity.
Qed.

(** X4. Reading handlers never write: after [list_datasets],
    [get_dataset] and [aggregate_data] the store is the store before,
    whether they return or raise. *)
Theorem readers_preserve_store (store : gmap string DataFrame) :
  snd (list_datasets store) = store /\
  (forall name limit, snd (get_dataset name limit store) = store) /\
  (forall request, snd (aggregate_data request store) = store).
Proof.
  split; [ reflexivity | split ].
  - intros name limit. revert store.
    change (preserves_store (get_dataset name limit)).
    unfold get_dataset. frame.
  - intros request. revert store.
    change (preserves_store (aggregate_data request)).
    unfold aggregate_data. frame.
Qed.

End Lookups.

(** ** Deleting and overwriting *)

(** X1. Deleting an existing dataset returns, removes that name from the
    store and leaves every other name bound as before; fetching the name
    afterwards raises 404. *)
Theorem delete_dataset_removes (store : gmap string DataFrame)
  (name : string) (df : DataFrame) :
  store !! name = Some df ->
  delete_dataset name store
  = (inr {| Deleted.message :=
              "Dataset '" +:+ name +:+ "' deleted successfully" |},
     delete name store) /\
  (forall other, other <> name -> delete name store !! other = store !! other) /\
  (forall limit,
     get_dataset name limit (delete name store)
     = (inl dataset_not_found, delete name store)).
Proof.
  intros Hdf. destruct (lookup_present _ _ _ Hdf) as [Hc _].
  split; [ | split ].
  - unfold delete_dataset, bind at 1. rewrite Hc. simpl.
    unfold bind, store_delitem. rewrite Hdf. reflexivity.
  - intros other Hne. apply lookup_delete_ne. congruence.
  - intros limit. unfold get_dataset, bind at 1. cbv beta.
    rewrite (lookup_absent _ name (lookup_delete_eq store name)). reflexivity.
Qed.

(** X13. Creating a dataset under a name that was free and deleting it
    again gives back the store one started from. *)
Theorem create_then_delete (store : gmap string DataFrame)
  (name : string) (rows : list record) (df : DataFrame) :
  store !! name = None ->
  DataFrame_ rows = inr df ->
  snd (delete_dataset name
         (snd (create_dataset {| DataUpload.name := name;
                                 DataUpload.data := rows |} store)))
  = store.
Proof.
  intros Hfree Hdf.
  destruct (create_dataset_binds store name rows df Hdf) as (c & Hc & Hl & _).
  rewrite Hc. cbn [snd].
  destruct (delete_dataset_removes _ name df Hl) as [Hd _].
  rewrite Hd. cbn [snd].
  rewrite delete_insert_eq. apply delete_id. exact Hfree.
Qed.

(** X20. The last upload wins: when the second of two uploads under one
    name is built, the store is the same as if the first had never been
    made, whether the first succeeded or not. *)
Theorem create_last_wins (store : gmap string DataFrame)
  (name : string) (rows1 rows2 : list record) (df2 : DataFrame) :
  DataFrame_ rows2 = inr df2 ->
  snd (create_dataset {| DataUpload.name := name; DataUpload.data := rows2 |}
         (snd (create_dataset {| DataUpload.name := name;
                                 DataUpload.data := rows1 |} store)))
  = snd (create_dataset {| DataUpload.name := name;
                           DataUpload.data := rows2 |} store).
Proof.
  intros H2.
  destruct (create_dataset_binds store name rows2 df2 H2) as (c & Hc & _).
  rewrite Hc. cbn [snd].
  destruct (DataFrame_ rows1) as [e | df1] eqn:H1.
  - rewrite (create_dataset_atomic store name rows1 e H1). cbn [snd].
    rewrite Hc. reflexivity.
  - destruct (create_dataset_binds store name rows1 df1 H1) as (c1 & Hc1 & _).
    rewrite Hc1. cbn [snd].
    destruct (create_dataset_binds (<[name := df1]> store) name rows2 df2 H2)
      as (c2 & Hc2 & _).
    rewrite Hc2. cbn [snd]. apply insert_insert_eq.
Qed.

(** X17. The listing has one entry per stored dataset and no other; the
    entry of a dataset gives its row count, its column names and its
    shape.  Right after an upload, the entry of the new dataset repeats
    the shape and the columns of the upload's response. *)
Theorem list_datasets_entries (store : gmap string DataFrame)
  (name : string) (rows : list record) (df : DataFrame) :
  DataFrame_ rows = inr df ->
  (exists listing,
     list_datasets store = (inr listing, store) /\
     forall other,
       listing !! other
       = option_map (fun d => {| Listed.rows := len d;
                                 Listed.columns := Pd.columns d;
                                 Listed.shape := Pd.shape d |})
           (store !! other)) /\
  exists created store' listing,
    create_dataset {| DataUpload.name := name; DataUpload.data := rows |} store
    = (inr created, store') /\
    list_datasets store' = (inr listing, store') /\
    listing !! name
    = Some {| Listed.rows := Z.of_nat (length rows);
              Listed.columns := Created.columns created;
              Listed.shape := Created.shape created |}.
Proof.
  intros Hdf. split.
  - eexists. split; [ reflexivity | ].
    intros other. rewrite lookup_fmap. destruct (store !! other); reflexivity.
  - destruct (create_dataset_binds store name rows df Hdf)
      as (created & Hc & Hl & Hshape & Hcols).
    exists created, (<[name := df]> store). eexists.
    split; [ exact Hc | ]. split; [ reflexivity | ].
    rewrite lookup_fmap, Hl. simpl. rewrite Hshape, Hcols.
    f_equal. f_equal. unfold len.
    unfold DataFrame_ in Hdf.
    destruct (res_map _ _) as [e | cs]; simpl in Hdf; [ discriminate | ].
    injection Hdf as <-. reflexivity.
Qed.

(** ** Well-formed tables *)

Lemma tolist_finish_length (s : Seen) (objects : list Py.value) :
  length (tolist (finish s objects)) = length objects.
Proof.
  unfold finish.
  repeat match goal with
         | |- context [if ?b then _ else _] => destruct b
         end; simpl; rewrite ?length_map; reflexivity.
Qed.

Lemma maybe_convert_length (objects : list Py.value) (a : array) :
  maybe_convert_objects objects = inr a ->
  length (tolist a) = length objects.
Proof.
  unfold maybe_convert_objects.
  destruct (scan seen_nothing objects) as [e | s]; simpl; [ discriminate | ].
  intros H. injection H as <-. apply tolist_finish_length.
Qed.

(** What [pd.DataFrame] builds: one row per record, one column per key
    of [fast_unique], each the inferred array of the cells under that
    key. *)
Lemma DataFrame_cols (rows : list record) (df : DataFrame) :
  DataFrame_ rows = inr df ->
  nrows df = length rows /\
  Forall2 (fun k c => fst c = k /\
                      maybe_convert_objects (dicts_to_array rows k) = inr (snd c))
    (fast_unique rows) (cols df).
Proof.
  unfold DataFrame_. intros H.
  destruct (res_map _ (fast_unique rows)) as [e | cs] eqn:Hcs; simpl in H;
    [ discriminate | ].
  injection H as <-. split; [ reflexivity | ]. simpl.
  apply res_map_Forall2 in Hcs.
  eapply Forall2_impl; [ exact Hcs | ].
  intros k c Hk. cbn beta in Hk.
  destruct (maybe_convert_objects (dicts_to_array rows k)); simpl in Hk;
    [ discriminate | ].
  injection Hk as <-. auto.
Qed.

Lemma DataFrame_wf (rows : list record) (df : DataFrame) :
  DataFrame_ rows = inr df -> wf_frame df.
Proof.
  intros H. destruct (DataFrame_cols rows df H) as [Hn Hcols].
  unfold wf_frame. rewrite Hn.
  induction Hcols as [ | k c ks cs [_ Hc] _ IH ]; constructor; [ | exact IH ].
  rewrite (maybe_convert_length _ _ Hc). unfold dicts_to_array. apply length_map.
Qed.

Lemma data_store_sample : data_store = <["sample" := sample_frame]> ∅.
Proof.
  unfold data_store, startup, bind, lift, store_setitem.
  assert (H : DataFrame_ sample_data = inr sample_frame) by reflexivity.
  rewrite H. reflexivity.
Qed.

(** X5. The invariant of the data model: in every table of the store,
    all columns have as many elements as the table has rows.  It holds
    of the store seeded at start-up, every table that [pd.DataFrame]
    builds has it, and the two handlers that write the store,
    [create_dataset] and [delete_dataset], keep it whether they return
    or raise. *)
Theorem store_wf_invariant :
  store_wf data_store /\
  (forall rows df, DataFrame_ rows = inr df -> wf_frame df) /\
  (forall store, store_wf store ->
     (forall upload, store_wf (snd (create_dataset upload store))) /\
     (forall name, store_wf (snd (delete_dataset name store)))).
Proof.
  split; [ | split ].
  - rewrite data_store_sample. intros name df H.
    apply lookup_insert_Some in H. destruct H as [[_ <-] | [_ H]].
    + exact sample_frame_wf.
    + rewrite lookup_empty in H. discriminate.
  - exact DataFrame_wf.
  - intros store Hwf. split.
    + intros [name rows].
      destruct (DataFrame_ rows) as [e | df] eqn:Hdf.
      * rewrite (create_dataset_atomic store name rows e Hdf). exact Hwf.
      * destruct (create_dataset_binds store name rows df Hdf) as (c & Hc & _).
        rewrite Hc. cbn [snd]. intros other d H.
        apply lookup_insert_Some in H. destruct H as [[_ <-] | [_ H]].
        -- exact (DataFrame_wf rows df Hdf).
        -- exact (Hwf other d H).
    + intros name. destruct (store !! name) as [df | ] eqn:Hdf.
      * destruct (delete_dataset_removes store name df Hdf) as [Hd _].
        rewrite Hd. cbn [snd]. intros other d H.
        apply lookup_delete_Some in H. destruct H as [_ H].
        exact (Hwf other d H).
      * unfold delete_dataset, bind at 1. cbv beta.
        rewrite (lookup_absent store name Hdf). exact Hwf.
Qed.

(** ** Fetching with a limit *)

Lemma nth_firstn_lt {A} (d : A) (l : list A) (i k : nat) :
  (i < k)%nat -> nth i (firstn k l) d = nth i l d.
Proof.
  revert i k. induction l as [ | x l IH ]; intros i k Hik.
  - rewrite firstn_nil. reflexivity.
  - destruct k as [ | k ]; [ lia | ].
    destruct i as [ | i ]; simpl; [ reflexivity | ].
    apply IH. lia.
Qed.

Lemma slice_stop_le (n : Z) (size : nat) : (slice_stop n size <= size)%nat.
Proof.
  unfold slice_stop. destruct (0 <=? n) eqn:E.
  - apply Nat.le_min_r.
  - apply Z.leb_gt in E. lia.
Qed.

Lemma firstn_seq_le (s n k : nat) :
  (k <= n)%nat -> firstn k (seq s n) = seq s k.
Proof.
  revert s n. induction k as [ | k IH ]; intros s n Hk; [ reflexivity | ].
  destruct n as [ | n ]; [ lia | ]. simpl. f_equal. apply IH. lia.
Qed.

Lemma tuples_head (cs : list (string * array)) (n k : nat) :
  (k <= n)%nat ->
  tuples (map (fun c => (fst c, array_map_rows (fun A => firstn k) (snd c))) cs) k
  = firstn k (tuples cs n).
Proof.
  intros Hk. unfold tuples.
  rewrite firstn_map, firstn_seq_le by exact Hk.
  apply map_ext_in. intros i Hi. apply in_seq in Hi.
  rewrite map_map. apply map_ext. intros [key a]. simpl.
  rewrite tolist_firstn. f_equal. apply nth_firstn_lt. lia.
Qed.

Lemma to_dict_records_head (n : Z) (df : DataFrame) :
  to_dict_records (head n df)
  = firstn (slice_stop n (nrows df)) (to_dict_records df).
Proof.
  unfold to_dict_records, head. cbn [cols nrows].
  destruct (cols df) as [ | c cs ]; [ rewrite firstn_nil; reflexivity | ].
  exact (tuples_head (c :: cs) (nrows df) _ (slice_stop_le n (nrows df))).
Qed.

Section Limit.
Context {K : Kernels}.

(** X6. Fetching with a limit other than zero returns a prefix of the
    records of the table: the first [n] for a positive limit [n] (all of
    them when the table has fewer), and for a negative limit [n] all but
    the last [-n] rows (none when the table has no more than that). *)
Theorem get_dataset_prefix (store : gmap string DataFrame) (name : string)
  (df : DataFrame) (n : Z) :
  store !! name = Some df ->
  n <> 0 ->
  exists r, get_dataset name (given (Some n)) store = (inr r, store) /\
    (0 < n -> Fetched.data r = firstn (Z.to_nat n) (to_dict_records df)) /\
    (n < 0 -> Fetched.data r
              = firstn (nrows df - Z.to_nat (- n)) (to_dict_records df)).
Proof.
  intros Hdf Hn. eexists.
  split; [ apply (get_dataset_found store name df _ Hdf) | ].
  cbn [Fetched.data or_default].
  apply Z.eqb_neq in Hn. rewrite Hn. cbn [negb].
  rewrite to_dict_records_head. unfold slice_stop.
  pose proof (to_dict_records_length df) as Hlen.
  assert (Hle : (length (to_dict_records df) <= nrows df)%nat).
  { rewrite Hlen. destruct (cols df); lia. }
  split; intros Hsign.
  - destruct (0 <=? n) eqn:E; [ | apply Z.leb_gt in E; lia ].
    destruct (Nat.le_ge_cases (Z.to_nat n) (nrows df)) as [H | H].
    + rewrite Nat.min_l by exact H. reflexivity.
    + rewrite Nat.min_r by exact H.
      rewrite !firstn_all2 by lia. reflexivity.
  - destruct (0 <=? n) eqn:E; [ apply Z.leb_le in E; lia | ].
    f_equal. lia.
Qed.

End Limit.

(** ** What a filter returns *)

Lemma compress_length_le {A} (mask : list bool) (l : list A) :
  (length (compress mask l) <= length l)%nat.
Proof.
  revert l. induction mask as [ | b mask IH ]; intros [ | x l ]; simpl; try lia.
  specialize (IH l). destruct b; simpl; lia.
Qed.

Lemma compress_all_false {A B} (l : list A) (l' : list B) :
  compress (map (fun _ => false) l) l' = [].
Proof.
  revert l'. induction l as [ | x l IH ]; intros [ | y l' ]; simpl; auto.
Qed.

Lemma has_column_getitem (column : string) (df : DataFrame) :
  has_column column df = true -> exists a, getitem column (cols df) = inr a.
Proof.
  unfold has_column, columns.
  induction (cols df) as [ | [k b] cs IH ]; simpl; [ discriminate | ].
  destruct (String.eqb column k); [ eauto | exact IH ].
Qed.

Lemma res_map_pure {A B} (f : A -> res B) (g : A -> B) (l : list A) :
  (forall a, f a = inr (g a)) -> res_map f l = inr (map g l).
Proof.
  intros H. induction l as [ | a l IH ]; simpl; [ reflexivity | ].
  rewrite H, IH. reflexivity.
Qed.

(** The response for a mask that keeps no row. *)
Lemma no_row_kept {A} (l : list A) (df : DataFrame) :
  to_dict_records (getitem_mask (map (fun _ => false) l) df) = [] /\
  len (getitem_mask (map (fun _ => false) l) df) = 0.
Proof.
  unfold to_dict_records, getitem_mask, len. cbn [cols nrows].
  rewrite compress_all_false. split; [ | reflexivity ].
  destruct (cols df); reflexivity.
Qed.

Section FilterResults.
Context {K : Kernels}.

Lemma filter_mask_eq df column value :
  filter_mask df column "eq" value
  = (series <- lift (getitem column (cols df)) ;;
     lift (compare_scalar op_eq series value)).
Proof. reflexivity. Qed.

Lemma filter_mask_gt df column value :
  filter_mask df column "gt" value
  = (series <- lift (getitem column (cols df)) ;;
     lift (compare_scalar op_gt series value)).
Proof. reflexivity. Qed.

Lemma filter_mask_lt df column value :
  filter_mask df column "lt" value
  = (series <- lift (getitem column (cols df)) ;;
     lift (compare_scalar op_lt series value)).
Proof. reflexivity. Qed.

(** X7. Whatever the operation, when [filter_data] returns on a stored
    (well-formed) table, the records it returns are records of that
    table, each at most once and in the table's order: they are the rows
    some mask keeps.  [total_rows] is between 0 and the row count of
    the table, and is the number of records returned when the table has
    a column. *)
Theorem filter_data_selects_rows (store : gmap string DataFrame)
  (request : FilterRequest.t) (df : DataFrame) (r : Filtered.t) :
  store !! FilterRequest.dataset_name request = Some df ->
  wf_frame df ->
  fst (filter_data request store) = inr r ->
  exists mask,
    Filtered.data r = compress mask (to_dict_records df) /\
    0 <= Filtered.total_rows r <= len df /\
    (cols df <> [] ->
     Filtered.total_rows r = Z.of_nat (length (Filtered.data r))).
Proof.
  intros Hdf Hwf Hr.
  destruct (has_column (FilterRequest.column request) df) eqn:Hcol.
  2: { destruct request as [n c o v]. cbn [FilterRequest.dataset_name
         FilterRequest.column] in *.
       destruct (unknown_column_rejected store n c df Hdf Hcol) as [Hf _].
       rewrite Hf in Hr. discriminate. }
  rewrite (filter_data_found store request df Hdf Hcol) in Hr.
  unfold try_except, bind in Hr.
  destruct (filter_mask df _ _ _ store) as [[e | mask] store'];
    [ discriminate | ].
  simpl in Hr. injection Hr as <-. exists mask.
  cbn [Filtered.data Filtered.total_rows].
  rewrite (to_dict_records_mask mask df Hwf).
  unfold len, getitem_mask. cbn [nrows].
  pose proof (compress_length_le mask (seq 0 (nrows df))) as Hle.
  rewrite length_seq in Hle.
  split; [ reflexivity | ]. split; [ lia | ].
  intros Hne. f_equal. unfold to_dict_records, tuples.
  destruct (cols df); [ contradiction | ].
  rewrite <- compress_map, length_map. reflexivity.
Qed.

(** X8. Comparing with a missing value keeps nothing: for an existing
    column and a value that is null (or NaN), the operations [eq], [gt]
    and [lt] return no record and [total_rows = 0], whatever the column
    holds, without raising. *)
Theorem filter_missing_value_keeps_nothing (store : gmap string DataFrame)
  (name column operation : string) (value : Py.value) (df : DataFrame) :
  store !! name = Some df ->
  has_column column df = true ->
  isna value = true ->
  In operation ["eq"; "gt"; "lt"] ->
  filter_data {| FilterRequest.dataset_name := name;
                 FilterRequest.column := column;
                 FilterRequest.operation := operation;
                 FilterRequest.value := value |} store
  = (inr {| Filtered.data := []; Filtered.total_rows := 0 |}, store).
Proof.
  intros Hdf Hcol Hna Hop.
  destruct (has_column_getitem _ _ Hcol) as [a Ha].
  rewrite (filter_data_found store _ df) by assumption.
  cbn [FilterRequest.column FilterRequest.operation FilterRequest.value].
  assert (Hmask : filter_mask df column operation value store
                  = (inr (map (fun _ => false) (tolist a)), store)).
  { simpl in Hop. destruct Hop as [<- | [<- | [<- | []]]];
      rewrite ?filter_mask_eq, ?filter_mask_gt, ?filter_mask_lt;
      unfold bind, lift; rewrite Ha; unfold compare_scalar; rewrite Hna;
      reflexivity. }
  unfold try_except, bind. rewrite Hmask. unfold ret.
  destruct (no_row_kept (tolist a) df) as [-> ->]. reflexivity.
Qed.

(** X9. Equality on an [object] column (text, or mixed cells): for a
    value that is not missing, [eq] never raises and keeps exactly the
    rows whose cell is not missing and equal to the value under Python's
    [==], in the table's order. *)
Theorem filter_eq_object_column (store : gmap string DataFrame)
  (name column : string) (value : Py.value) (df : DataFrame)
  (cells : list Py.value) :
  store !! name = Some df ->
  wf_frame df ->
  getitem column (cols df) = inr (ObjectArray cells) ->
  isna value = false ->
  let mask := map (fun cell => negb (isna cell) && py_eq cell value) cells in
  filter_data {| FilterRequest.dataset_name := name;
                 FilterRequest.column := column;
                 FilterRequest.operation := "eq";
                 FilterRequest.value := value |} store
  = (inr {| Filtered.data := compress mask (to_dict_records df);
            Filtered.total_rows :=
              Z.of_nat (length (List.filter (fun b : bool => b) mask)) |},
     store).
Proof.
  intros Hdf Hwf Hcol Hna mask.
  rewrite (filter_data_found store _ df);
    [ | exact Hdf | exact (getitem_has_column _ _ _ Hcol) ].
  cbn [FilterRequest.column FilterRequest.operation FilterRequest.value].
  rewrite filter_mask_eq. unfold try_except, bind, lift, ret.
  rewrite Hcol. unfold compare_scalar. rewrite Hna. unfold scalar_compare.
  rewrite (res_map_pure _ (fun cell => negb (isna cell) && py_eq cell value))
    by (intros cell; destruct (isna cell); reflexivity).
  fold mask. rewrite (to_dict_records_mask mask df Hwf).
  unfold len, getitem_mask. cbn [nrows].
  rewrite count_compress_seq; [ reflexivity | ].
  unfold mask. rewrite length_map.
  exact (getitem_length _ _ _ Hwf Hcol).
Qed.

(** X10. A text against a typed column (bool, int64, uint64 or
    float64): [eq] keeps no row and does not raise, while [gt] and [lt]
    raise a [TypeError], which the handler turns into an
    [HTTPException] with status 400. *)
Theorem filter_text_against_typed_column (store : gmap string DataFrame)
  (name column text : string) (df : DataFrame) (series : array) :
  store !! name = Some df ->
  getitem column (cols df) = inr series ->
  array_dtype series <> dt_object ->
  let request operation :=
    {| FilterRequest.dataset_name := name;
       FilterRequest.column := column;
       FilterRequest.operation := operation;
       FilterRequest.value := PyStr text |} in
  let error :=
    HTTPException 400
      (str_exn (TypeError "Invalid comparison between dtype and str"
                  [PyStr (dtype_str (array_dtype series)); PyStr text])) in
  filter_data (request "eq") store
  = (inr {| Filtered.data := []; Filtered.total_rows := 0 |}, store) /\
  filter_data (request "gt") store = (inl error, store) /\
  filter_data (request "lt") store = (inl error, store).
Proof.
  intros Hdf Hcol Hdt request error.
  pose proof (getitem_has_column _ _ _ Hcol) as Hhas.
  unfold request. repeat split;
    rewrite (filter_data_found store _ df) by assumption;
    cbn [FilterRequest.column FilterRequest.operation FilterRequest.value];
    rewrite ?filter_mask_eq, ?filter_mask_gt, ?filter_mask_lt;
    unfold try_except, bind, lift, ret; rewrite Hcol;
    destruct series; try (exfalso; apply Hdt; reflexivity);
    cbn [compare_scalar isna];
    try reflexivity;
    match goal with
    | |- context [tolist ?a] =>
        destruct (no_row_kept (tolist a) df) as [-> ->]; reflexivity
    end.
Qed.

End FilterResults.

(** ** The columns of an upload *)

Lemma scan_total (objects : list Py.value) :
  forall s, forallb (int_ok false) objects = true ->
            exists s', scan s objects = inr s'.
Proof.
  induction objects as [ | v objects IH ]; intros s Hok; [ simpl; eauto | ].
  simpl in Hok. apply andb_true_iff in Hok. destruct Hok as [Hv Hok].
  destruct v as [ | b | z | f | str ]; cbn [scan]; eauto.
  - simpl in Hv. rewrite andb_true_r in Hv. apply negb_true_iff in Hv.
    unfold int_to_double. rewrite Hv. cbn [res_bind].
    destruct (null_ s); [ eauto | ].
    destruct (_ || _ || _); eauto.
  - destruct (is_nan f); eauto.
Qed.

Lemma dict_get_Some_In (k : string) (row : record) (v : Py.value) :
  dict_get k row = Some v -> In (k, v) row.
Proof.
  induction row as [ | [k' v'] row IH ]; simpl; [ discriminate | ].
  destruct (String.eqb k k') eqn:E.
  - apply String.eqb_eq in E. subst. intros H. injection H as <-. auto.
  - auto.
Qed.

Lemma dicts_to_array_ok (rows : list record) (k : string) :
  no_overflow rows = true ->
  forallb (int_ok false) (dicts_to_array rows k) = true.
Proof.
  unfold no_overflow, dicts_to_array. intros H.
  rewrite forallb_forall in *. intros v Hv. apply in_map_iff in Hv.
  destruct Hv as (row & <- & Hrow). specialize (H row Hrow).
  destruct (dict_get k row) as [v | ] eqn:Hg; simpl; [ | reflexivity ].
  rewrite forallb_forall in H.
  exact (H (k, v) (dict_get_Some_In _ _ _ Hg)).
Qed.

Lemma add_unique_spec (u : list string) (k : string) :
  List.NoDup u ->
  List.NoDup (add_unique u k) /\
  forall k', In k' (add_unique u k) <-> In k' u \/ k' = k.
Proof.
  intros Hnd. unfold add_unique.
  destruct (existsb (String.eqb k) u) eqn:E.
  - apply existsb_eqb_In in E. split; [ exact Hnd | ].
    intros k'. split; [ auto | intros [H | ->]; assumption ].
  - assert (Hk : ~ In k u).
    { intros H. apply existsb_eqb_In in H. congruence. }
    split.
    + eapply Permutation_NoDup; [ apply Permutation_cons_append | ].
      constructor; assumption.
    + intros k'. rewrite in_app_iff. simpl. intuition.
Qed.

Lemma fold_add_unique_spec (l u : list string) :
  List.NoDup u ->
  List.NoDup (fold_left add_unique l u) /\
  forall k, In k (fold_left add_unique l u) <-> In k u \/ In k l.
Proof.
  revert u. induction l as [ | x l IH ]; intros u Hnd; simpl.
  - split; [ exact Hnd | ]. intros k. tauto.
  - destruct (add_unique_spec u x Hnd) as [Hnd' Hin'].
    destruct (IH _ Hnd') as [Hnd'' Hin''].
    split; [ exact Hnd'' | ].
    intros k. rewrite Hin'', Hin'. split.
    + intros [[H | ->] | H]; auto.
    + intros [H | [<- | H]]; auto.
Qed.

(** The column names are the keys of the rows, each once. *)
Lemma fast_unique_spec (rows : list record) :
  List.NoDup (fast_unique rows) /\
  forall k, In k (fast_unique rows)
            <-> exists row, In row rows /\ In k (map fst row).
Proof.
  unfold fast_unique.
  assert (H : forall u, List.NoDup u ->
            List.NoDup (fold_left
                     (fun uniques row => fold_left add_unique (map fst row) uniques)
                     rows u) /\
            forall k, In k (fold_left
                     (fun uniques row => fold_left add_unique (map fst row) uniques)
                     rows u)
                      <-> In k u \/ exists row, In row rows /\ In k (map fst row)).
  { induction rows as [ | row rows IH ]; intros u Hnd; simpl.
    - split; [ exact Hnd | ]. intros k. split; [ auto | ].
      intros [H | (row & [] & _)]. exact H.
    - destruct (fold_add_unique_spec (map fst row) u Hnd) as [Hnd' Hin'].
      destruct (IH _ Hnd') as [Hnd'' Hin''].
      split; [ exact Hnd'' | ].
      intros k. rewrite Hin'', Hin'. split.
      + intros [[H | H] | (r & Hr & Hk)]; eauto 6.
      + intros [H | (r & [<- | Hr] & Hk)]; eauto 6. }
  destruct (H [] (List.NoDup_nil _)) as [Hnd Hin].
  split; [ exact Hnd | ].
  intros k. rewrite Hin. split; [ intros [[] | Hk]; exact Hk | auto ].
Qed.

Lemma DataFrame_no_overflow (rows : list record) :
  no_overflow rows = true -> exists df, DataFrame_ rows = inr df.
Proof.
  intros Hok. unfold DataFrame_.
  destruct (res_map_ok
              (fun k => res_bind (maybe_convert_objects (dicts_to_array rows k))
                          (fun a => inr (k, a)))
              (fun _ _ => True) (fast_unique rows)) as (cs & Hcs & _).
  { intros k _. unfold maybe_convert_objects.
    destruct (scan_total (dicts_to_array rows k) seen_nothing
                (dicts_to_array_ok rows k Hok)) as [s Hs].
    rewrite Hs. simpl. eauto. }
  rewrite Hcs. simpl. eauto.
Qed.

(** X11. An upload in which no integer is too large for a double is
    always accepted, ragged or not.  The response gives the shape (number
    of rows uploaded, number of columns), and the columns are the keys
    that occur in the rows, each listed once; the new table is bound to
    the name. *)
Theorem create_dataset_columns (store : gmap string DataFrame)
  (name : string) (rows : list record) :
  no_overflow rows = true ->
  exists created df,
    create_dataset {| DataUpload.name := name; DataUpload.data := rows |} store
    = (inr created, <[name := df]> store) /\
    Created.shape created
    = (Z.of_nat (length rows), Z.of_nat (length (Created.columns created))) /\
    List.NoDup (Created.columns created) /\
    (forall k, In k (Created.columns created)
               <-> exists row, In row rows /\ In k (map fst row)) /\
    Pd.columns df = Created.columns created /\ len df = Z.of_nat (length rows).
Proof.
  intros Hok. destruct (DataFrame_no_overflow rows Hok) as [df Hdf].
  destruct (DataFrame_cols rows df Hdf) as [Hn Hcols].
  assert (Hkeys : Pd.columns df = fast_unique rows).
  { unfold Pd.columns. clear -Hcols.
    induction Hcols as [ | k c ks cs [Hk _] _ IH ]; simpl;
      [ reflexivity | rewrite Hk, IH; reflexivity ]. }
  exists {| Created.message := "Dataset '" +:+ name +:+ "' created successfully";
            Created.shape := Pd.shape df;
            Created.columns := Pd.columns df |}, df.
  cbn [Created.shape Created.columns].
  destruct (fast_unique_spec rows) as [Hnd Hin].
  split; [ | split; [ | split; [ | split; [ | split ] ] ] ].
  - unfold create_dataset, try_except, bind, lift, store_setitem, ret. simpl.
    rewrite Hdf. reflexivity.
  - unfold Pd.shape, Pd.columns. rewrite Hn, length_map. reflexivity.
  - rewrite Hkeys. exact Hnd.
  - rewrite Hkeys. exact Hin.
  - reflexivity.
  - unfold len. rewrite Hn. reflexivity.
Qed.

(** ** Missing cells *)

(** When the scan does not give up for [object], a missing cell in the
    column leaves one of the two missing-value flags set. *)
Lemma scan_missing_flag (objects : list Py.value) :
  forall s s',
    scan s objects = inr s' ->
    object_ s' = false ->
    null_ s || nan_ s = true \/ existsb isna objects = true ->
    null_ s' || nan_ s' = true.
Proof.
  induction objects as [ | v objects IH ]; intros s s' Hscan Hobj Hm.
  - simpl in Hscan. injection Hscan as <-.
    destruct Hm as [Hm | Hm]; [ exact Hm | discriminate ].
  - destruct v as [ | b | z | f | str ]; cbn [scan] in Hscan.
    + apply (IH _ _ Hscan Hobj). left. reflexivity.
    + apply (IH _ _ Hscan Hobj). simpl in Hm. simpl. exact Hm.
    + destruct (int_to_double z); cbn [res_bind] in Hscan; [ discriminate | ].
      destruct (null_ s) eqn:Hnull.
      * apply (IH _ _ Hscan Hobj). left. simpl. rewrite ?Hnull. reflexivity.
      * destruct (_ || _ || _).
        -- injection Hscan as <-. discriminate.
        -- apply (IH _ _ Hscan Hobj). simpl in Hm. simpl.
           rewrite ?Hnull. exact Hm.
    + destruct (is_nan f) eqn:Hf.
      * apply (IH _ _ Hscan Hobj). left. simpl. apply orb_true_r.
      * apply (IH _ _ Hscan Hobj). simpl in Hm. rewrite Hf in Hm.
        simpl. exact Hm.
    + injection Hscan as <-. discriminate.
Qed.

Lemma as_float_missing (v : Py.value) :
  isna v = true -> isna (PyFloat (as_float v)) = true.
Proof. destruct v; simpl; auto; discriminate. Qed.

(** Type inference keeps a missing cell missing, at its place. *)
Lemma maybe_convert_missing (objects : list Py.value) (a : array)
  (i : nat) (v : Py.value) :
  maybe_convert_objects objects = inr a ->
  objects !! i = Some v -> isna v = true ->
  exists v', tolist a !! i = Some v' /\ isna v' = true.
Proof.
  unfold maybe_convert_objects. intros Ha Hi Hv.
  destruct (scan seen_nothing objects) as [e | s] eqn:Hscan;
    cbn [res_bind] in Ha; [ discriminate | ].
  injection Ha as <-.
  assert (Hfloat : exists v', map PyFloat (map as_float objects) !! i = Some v'
                              /\ isna v' = true).
  { exists (PyFloat (as_float v)). rewrite !lookup_map, Hi.
    split; [ reflexivity | exact (as_float_missing v Hv) ]. }
  unfold finish. destruct (object_ s) eqn:Hobj; [ simpl; eauto | ].
  assert (Hflag : null_ s || nan_ s = true).
  { apply (scan_missing_flag objects _ _ Hscan Hobj). right.
    apply existsb_exists. exists v. split; [ | exact Hv ].
    apply list_elem_of_In. apply list_elem_of_lookup. eauto. }
  rewrite Hflag. cbn [orb].
  destruct (bool_ s); [ simpl; eauto | ].
  destruct (float_ s || int_ s || nan_ s); [ exact Hfloat | simpl; eauto ].
Qed.

Lemma dict_get_tuple {A} (g : A -> Py.value) (k : string)
  (cs : list (string * A)) :
  dict_get k (map (fun c => (fst c, g (snd c))) cs)
  = match find (fun c => String.eqb k (fst c)) cs with
    | Some c => Some (g (snd c))
    | None => None
    end.
Proof.
  induction cs as [ | [k' a] cs IH ]; simpl; [ reflexivity | ].
  destruct (String.eqb k k'); [ reflexivity | exact IH ].
Qed.

Lemma find_column (k : string) (cs : list (string * array)) :
  In k (map fst cs) ->
  exists c, find (fun c => String.eqb k (fst c)) cs = Some c /\
            In c cs /\ fst c = k.
Proof.
  induction cs as [ | [k' a] cs IH ]; simpl; [ intros [] | ].
  destruct (String.eqb k k') eqn:E.
  - apply String.eqb_eq in E. subst. intros _. exists (k', a). auto.
  - intros [H | H]; [ apply String.eqb_neq in E; congruence | ].
    destruct (IH H) as (c & Hf & Hin & Hk). eauto.
Qed.

(** X12. Missing stays missing.  After any accepted upload, take row
    [i] and a column [k] of the new table: when the row of the upload
    has no key [k], or has a null or NaN under it, the record fetched at
    position [i] has under [k] a missing value (None or NaN). *)
Theorem missing_cell_stays_missing (rows : list record) (df : DataFrame)
  (i : nat) (row : record) (k : string) :
  DataFrame_ rows = inr df ->
  rows !! i = Some row ->
  In k (Pd.columns df) ->
  isna (default (PyFloat nan) (dict_get k row)) = true ->
  exists fetched v,
    to_dict_records df !! i = Some fetched /\
    dict_get k fetched = Some v /\ isna v = true.
Proof.
  intros Hdf Hi Hk Hmiss.
  destruct (DataFrame_cols rows df Hdf) as [Hn Hcols].
  destruct (find_column k (cols df) Hk) as ([k' a] & Hfind & Hin & Hk').
  simpl in Hk'. subst k'.
  assert (Ha : maybe_convert_objects (dicts_to_array rows k) = inr a).
  { clear -Hcols Hin.
    induction Hcols as [ | k0 c ks cs [Hk0 Hc] _ IH ]; [ destruct Hin | ].
    destruct Hin as [-> | Hin]; [ simpl in *; subst; exact Hc | auto ]. }
  destruct (maybe_convert_missing (dicts_to_array rows k) a i
              (default (PyFloat nan) (dict_get k row)) Ha) as (v & Hv & Hna).
  { unfold dicts_to_array. rewrite lookup_map, Hi. reflexivity. }
  { exact Hmiss. }
  exists (map (fun c => (fst c, nth i (tolist (snd c)) PyNone)) (cols df)), v.
  split; [ | split; [ | exact Hna ] ].
  - unfold to_dict_records, tuples.
    destruct (cols df) as [ | c cs ] eqn:Hc; [ destruct Hin | ].
    rewrite lookup_map.
    assert (Hlt : (i < nrows df)%nat).
    { rewrite Hn. apply lookup_lt_Some in Hi. exact Hi. }
    rewrite (lookup_seq_lt _ _ _ Hlt). reflexivity.
  - rewrite (dict_get_tuple (fun a => nth i (tolist a) PyNone)), Hfind.
    simpl. rewrite (nth_lookup_Some _ _ PyNone _ Hv). reflexivity.
Qed.

(** ** Aggregates of typed columns *)

Lemma filter_all_nan (cells : list float) :
  forallb is_nan cells = true ->
  List.filter (fun f => negb (is_nan f)) cells = [].
Proof.
  induction cells as [ | f cells IH ]; simpl; [ reflexivity | ].
  intros H. apply andb_true_iff in H. destruct H as [-> H]. simpl. auto.
Qed.

Lemma wrap_int64_small (z : Z) :
  INT64_MIN <= z <= INT64_MAX -> wrap_int64 z = z.
Proof.
  unfold INT64_MIN, INT64_MAX, wrap_int64. intros H.
  rewrite Z.mod_small; lia.
Qed.

Lemma before_Z_refl is_max a : before_Z is_max a a = true.
Proof. destruct is_max; apply Z.leb_refl. Qed.

Lemma before_Z_total is_max a b :
  before_Z is_max a b = true \/ before_Z is_max b a = true.
Proof. destruct is_max; simpl; rewrite !Z.leb_le; lia. Qed.

Lemma before_Z_trans is_max a b c :
  before_Z is_max a b = true -> before_Z is_max b c = true ->
  before_Z is_max a c = true.
Proof. destruct is_max; simpl; rewrite !Z.leb_le; lia. Qed.

Lemma fold_before_Z_spec (is_max : bool) (l : list Z) (x : Z) :
  let m := fold_left (fun a y => if before_Z is_max a y then a else y) l x in
  In m (x :: l) /\ forall z, In z (x :: l) -> before_Z is_max m z = true.
Proof.
  revert x. induction l as [ | y l IH ]; intros x; simpl.
  - split; [ auto | ]. intros z [<- | []]. apply before_Z_refl.
  - destruct (IH (if before_Z is_max x y then x else y)) as [Hin Hle].
    simpl in Hin, Hle. split.
    + destruct Hin as [Hin | Hin]; [ | auto ].
      rewrite <- Hin. destruct (before_Z is_max x y); auto.
    + intros z Hz.
      assert (Hpick : before_Z is_max (if before_Z is_max x y then x else y) x = true
                      /\ before_Z is_max (if before_Z is_max x y then x else y) y = true).
      { destruct (before_Z is_max x y) eqn:E.
        - split; [ apply before_Z_refl | assumption ].
        - split; [ | apply before_Z_refl ].
          destruct (before_Z_total is_max x y); congruence. }
      destruct Hpick as [Hx Hy].
      destruct Hz as [<- | [<- | Hz]].
      * eapply before_Z_trans; [ apply Hle; auto | exact Hx ].
      * eapply before_Z_trans; [ apply Hle; auto | exact Hy ].
      * apply Hle. auto.
Qed.

Lemma cmp_holds_before_Z (is_max : bool) (a b : Z) :
  cmp_holds (if is_max then Py_GE else Py_LE) (a ?= b) = before_Z is_max a b.
Proof.
  destruct is_max; simpl.
  - rewrite Z.leb_compare, (Z.compare_antisym a b).
    destruct (a ?= b); reflexivity.
  - rewrite Z.leb_compare. destruct (a ?= b); reflexivity.
Qed.

Lemma reduce_ints (is_max : bool) (l : list Z) (x : Z) :
  fold_left
    (fun acc y =>
       res_bind acc (fun a =>
         res_bind (rich_compare (if is_max then Py_GE else Py_LE)
                     (PyInt a) (PyInt y))
           (fun b => inr (if b then a else y))))
    l (inr x)
  = inr (fold_left (fun a y => if before_Z is_max a y then a else y) l x).
Proof.
  revert x. induction l as [ | y l IH ]; intros x; simpl; [ reflexivity | ].
  rewrite cmp_holds_before_Z. destruct (before_Z is_max x y); apply IH.
Qed.

Lemma minmax_ints (is_max : bool) (cells : list Z) :
  cells <> [] ->
  exists m, minmax is_max (Int64Array cells) = inr (PyInt m) /\
    In m cells /\ forall z, In z cells -> before_Z is_max m z = true.
Proof.
  intros Hne. destruct cells as [ | x l ]; [ contradiction | ].
  destruct (fold_before_Z_spec is_max l x) as [Hin Hle].
  eexists. split; [ | split; [ exact Hin | exact Hle ] ].
  unfold minmax, extremum, reduce_with.
  rewrite reduce_ints. reflexivity.
Qed.

Section TypedColumns.
Context {K : Kernels}.

Lemma reduce_sum series : reduce series "sum" = lift (res_bind series Pd.sum).
Proof. reflexivity. Qed.

Lemma reduce_mean series : reduce series "mean" = lift (res_bind series Pd.mean).
Proof. reflexivity. Qed.

Lemma reduce_median series :
  reduce series "median" = lift (res_bind series Pd.median).
Proof. reflexivity. Qed.

(** X14. On a float64 column in which every cell is missing (or that
    has no cell at all), [mean], [median], [min] and [max] return
    normally with the absent value as result; none of them raises. *)
Theorem aggregate_all_missing (store : gmap string DataFrame)
  (name column operation : string) (df : DataFrame) (cells : list float) :
  store !! name = Some df ->
  getitem column (cols df) = inr (Float64Array cells) ->
  forallb is_nan cells = true ->
  In operation ["mean"; "median"; "min"; "max"] ->
  aggregate_data {| AggregateRequest.dataset_name := name;
                    AggregateRequest.column := column;
                    AggregateRequest.operation := operation |} store
  = (inr {| Aggregated.column := column;
            Aggregated.operation := operation;
            Aggregated.result := None |}, store).
Proof.
  intros Hdf Hcol Hnan Hop.
  rewrite (aggregate_data_found store _ df);
    [ | exact Hdf | exact (getitem_has_column _ _ _ Hcol) ].
  cbn [AggregateRequest.column AggregateRequest.operation]. rewrite Hcol.
  assert (Hred : reduce (inr (Float64Array cells)) operation store
                 = (inr (PyFloat nan), store)).
  { simpl in Hop. destruct Hop as [<- | [<- | [<- | [<- | []]]]].
    - rewrite reduce_mean. unfold lift, res_bind, Pd.mean.
      rewrite (filter_all_nan cells Hnan). reflexivity.
    - rewrite reduce_median. unfold lift, res_bind, Pd.median.
      rewrite (filter_all_nan cells Hnan). reflexivity.
    - rewrite reduce_min. unfold lift, res_bind, Pd.min, minmax.
      rewrite Hnan. reflexivity.
    - rewrite reduce_max. unfold lift, res_bind, Pd.max, minmax.
      rewrite Hnan. reflexivity. }
  unfold try_except, bind. rewrite Hred. reflexivity.
Qed.

(** X15. The sum of an int64 column is the integer sum of its cells,
    as long as that sum fits an int64 (otherwise it wraps around), and
    the handler returns it converted to a float. *)
Theorem aggregate_sum_int64 (store : gmap string DataFrame)
  (name column : string) (df : DataFrame) (cells : list Z) :
  store !! name = Some df ->
  getitem column (cols df) = inr (Int64Array cells) ->
  INT64_MIN <= Zsum cells <= INT64_MAX ->
  int_overflows (Zsum cells) = false ->
  aggregate_data {| AggregateRequest.dataset_name := name;
                    AggregateRequest.column := column;
                    AggregateRequest.operation := "sum" |} store
  = (inr {| Aggregated.column := column;
            Aggregated.operation := "sum";
            Aggregated.result := Some (float_of_Z (Zsum cells)) |}, store).
Proof.
  intros Hdf Hcol Hrange Hfit.
  rewrite (aggregate_data_found store _ df);
    [ | exact Hdf | exact (getitem_has_column _ _ _ Hcol) ].
  cbn [AggregateRequest.column AggregateRequest.operation]. rewrite Hcol.
  rewrite reduce_sum. unfold try_except, bind, lift, res_bind, Pd.sum.
  rewrite (wrap_int64_small _ Hrange).
  cbn [notna isna negb]. unfold Py.float_, int_to_double. rewrite Hfit.
  reflexivity.
Qed.

(** X16. On a non-empty int64 column, [min] and [max] return the
    least, resp. greatest, integer of the column, converted to a
    float. *)
Theorem aggregate_minmax_int64 (store : gmap string DataFrame)
  (name column : string) (df : DataFrame) (cells : list Z) (is_max : bool) :
  store !! name = Some df ->
  getitem column (cols df) = inr (Int64Array cells) ->
  cells <> [] ->
  forallb (fun z => negb (int_overflows z)) cells = true ->
  let operation := if is_max then "max" else "min" in
  exists m, In m cells /\
    (forall z, In z cells -> if is_max then z <= m else m <= z) /\
    aggregate_data {| AggregateRequest.dataset_name := name;
                      AggregateRequest.column := column;
                      AggregateRequest.operation := operation |} store
    = (inr {| Aggregated.column := column;
              Aggregated.operation := operation;
              Aggregated.result := Some (float_of_Z m) |}, store).
Proof.
  intros Hdf Hcol Hne Hfit operation.
  destruct (minmax_ints is_max cells Hne) as (m & Hm & Hin & Hle).
  exists m. split; [ exact Hin | ]. split.
  { intros z Hz. specialize (Hle z Hz). unfold before_Z in Hle.
    destruct is_max; apply Z.leb_le in Hle; exact Hle. }
  rewrite (aggregate_data_found store _ df);
    [ | exact Hdf | exact (getitem_has_column _ _ _ Hcol) ].
  cbn [AggregateRequest.column AggregateRequest.operation]. rewrite Hcol.
  assert (Hred : reduce (inr (Int64Array cells)) operation store
                 = (inr (PyInt m), store)).
  { unfold operation. destruct is_max.
    - rewrite reduce_max. unfold lift, res_bind, Pd.max. rewrite Hm. reflexivity.
    - rewrite reduce_min. unfold lift, res_bind, Pd.min. rewrite Hm. reflexivity. }
  unfold try_except, bind. rewrite Hred.
  cbn [notna isna negb]. unfold lift, Py.float_, int_to_double.
  rewrite forallb_forall in Hfit. specialize (Hfit m Hin).
  apply negb_true_iff in Hfit. rewrite Hfit. reflexivity.
Qed.

End TypedColumns.

(** ** Statistics *)

Lemma filter_partition_length {A} (p : A -> bool) (l : list A) :
  (length (List.filter p l) + length (List.filter (fun x => negb (p x)) l)
   = length l)%nat.
Proof.
  induction l as [ | x l IH ]; simpl; [ reflexivity | ].
  destruct (p x); simpl; lia.
Qed.

Lemma lookup_count_isnull (column : string) (cs : list (string * array))
  (a : array) :
  getitem column cs = inr a ->
  Stats.lookup_count column
    (map (fun c => (fst c, Z.of_nat (length (List.filter isna (tolist (snd c))))))
       cs)
  = Some (Z.of_nat (length (List.filter isna (tolist a)))).
Proof.
  induction cs as [ | [k b] cs IH ]; simpl; [ discriminate | ].
  destruct (String.eqb column k).
  - intros H. injection H as <-. reflexivity.
  - exact IH.
Qed.

(** X18. The statistics handler on a stored (well-formed) table.  What
    [describe] raises leaves the handler unchanged (there is no [try]
    block, hence no status 400).  When [describe] returns, the handler
    returns, and for every column its null count and the [count] of the
    aggregate operation add up to the number of rows.  The store is left
    as it is in both cases. *)
Theorem statistics_null_counts {summary : Type}
  (describe : DataFrame -> res summary)
  (store : gmap string DataFrame) (name : string) (df : DataFrame) :
  store !! name = Some df ->
  wf_frame df ->
  match describe df with
  | inl e => Stats.get_statistics describe name store = (inl e, store)
  | inr stats =>
      exists r,
        Stats.get_statistics describe name store = (inr r, store) /\
        Stats.statistics r = stats /\
        forall column series,
          getitem column (cols df) = inr series ->
          exists present missing,
            Pd.count series = PyInt present /\
            Stats.lookup_count column (Stats.null_counts r)
            = Some missing /\
            present + missing = len df
  end.
Proof.
  intros Hdf Hwf. destruct (lookup_present _ _ _ Hdf) as [Hc Hg].
  assert (Hrun : Stats.get_statistics describe name store
                 = (match describe df with
                    | inl e => inl e
                    | inr stats =>
                        inr {| Stats.statistics := stats;
                               Stats.null_counts := Stats.isnull_sum df |}
                    end, store)).
  { unfold Stats.get_statistics, bind at 1. rewrite Hc. cbn [negb].
    unfold bind at 1. rewrite Hg. unfold bind, lift, ret.
    destruct (describe df); reflexivity. }
  rewrite Hrun. destruct (describe df) as [e | stats]; [ reflexivity | ].
  eexists. split; [ reflexivity | ]. split; [ reflexivity | ].
  intros column series Hcol. cbn [Stats.null_counts].
  exists (Z.of_nat (length (List.filter notna (tolist series)))),
         (Z.of_nat (length (List.filter isna (tolist series)))).
  split; [ reflexivity | ].
  split; [ exact (lookup_count_isnull column (cols df) series Hcol) | ].
  unfold len. rewrite <- (getitem_length _ _ _ Hwf Hcol).
  pose proof (filter_partition_length isna (tolist series)) as H.
  unfold notna. lia.
Qed.

(** ** Ordering filters on a text column *)

Lemma cmp_holds_gt (s t : string) :
  cmp_holds Py_GT (String.compare s t) = String.ltb t s.
Proof.
  unfold String.ltb. rewrite (String.compare_antisym t s).
  destruct (String.compare s t); reflexivity.
Qed.

Lemma cmp_holds_lt (s t : string) :
  cmp_holds Py_LT (String.compare s t) = String.ltb s t.
Proof. unfold String.ltb. destruct (String.compare s t); reflexivity. Qed.

Lemma res_map_map {A B C} (f : B -> res C) (g : A -> B) (l : list A) :
  res_map f (map g l) = res_map (fun a => f (g a)) l.
Proof.
  induction l as [ | a l IH ]; simpl; [ reflexivity | ].
  rewrite IH. reflexivity.
Qed.

Section TextOrder.
Context {K : Kernels}.

(** X19. On a column that holds only strings, with a string as value,
    [gt] and [lt] never raise: [gt] keeps exactly the rows whose cell is
    lexicographically after the value and [lt] those whose cell is
    before it, in the table's order. *)
Theorem filter_order_text_column (store : gmap string DataFrame)
  (name column text : string) (df : DataFrame) (cells : list string) :
  store !! name = Some df ->
  wf_frame df ->
  getitem column (cols df) = inr (ObjectArray (map PyStr cells)) ->
  let request operation :=
    {| FilterRequest.dataset_name := name;
       FilterRequest.column := column;
       FilterRequest.operation := operation;
       FilterRequest.value := PyStr text |} in
  let answer mask :=
    {| Filtered.data := compress mask (to_dict_records df);
       Filtered.total_rows :=
         Z.of_nat (length (List.filter (fun b : bool => b) mask)) |} in
  filter_data (request "gt") store
  = (inr (answer (map (fun cell => String.ltb text cell) cells)), store) /\
  filter_data (request "lt") store
  = (inr (answer (map (fun cell => String.ltb cell text) cells)), store).
Proof.
  intros Hdf Hwf Hcol request answer.
  pose proof (getitem_has_column _ _ _ Hcol) as Hhas.
  pose proof (getitem_length _ _ _ Hwf Hcol) as Hlen.
  simpl in Hlen. rewrite length_map in Hlen.
  unfold request, answer. split.
  - rewrite (filter_data_found store _ df) by assumption.
    cbn [FilterRequest.column FilterRequest.operation FilterRequest.value].
    rewrite filter_mask_gt. unfold try_except, bind, lift, ret.
    rewrite Hcol. cbn [compare_scalar isna]. unfold scalar_compare.
    rewrite res_map_map.
    rewrite (res_map_pure _ (fun cell => String.ltb text cell))
      by (intros cell; cbn [isna rich_compare]; rewrite cmp_holds_gt; reflexivity).
    rewrite (to_dict_records_mask _ df Hwf).
    unfold len, getitem_mask. cbn [nrows].
    rewrite count_compress_seq; [ reflexivity | ].
    rewrite length_map. exact Hlen.
  - rewrite (filter_data_found store _ df) by assumption.
    cbn [FilterRequest.column FilterRequest.operation FilterRequest.value].
    rewrite filter_mask_lt. unfold try_except, bind, lift, ret.
    rewrite Hcol. cbn [compare_scalar isna]. unfold scalar_compare.
    rewrite res_map_map.
    rewrite (res_map_pure _ (fun cell => String.ltb cell text))
      by (intros cell; cbn [isna rich_compare]; rewrite cmp_holds_lt; reflexivity).
    rewrite (to_dict_records_mask _ df Hwf).
    unfold len, getitem_mask. cbn [nrows].
    rewrite count_compress_seq; [ reflexivity | ].
    rewrite length_map. exact Hlen.
Qed.

End TextOrder.

(** ** Runs of the further properties *)

Lemma sample_stored : data_store !! "sample" = Some sample_frame.
Proof. rewrite data_store_sample. apply lookup_insert_eq. Qed.

Lemma delete_dataset_removes_witness :
  snd (delete_dataset "sample" data_store) = delete "sample" data_store /\
  get_dataset "sample" omitted (delete "sample" data_store)
  = (inl dataset_not_found, delete "sample" data_store).
Proof.
  destruct (delete_dataset_removes data_store "sample" sample_frame sample_stored)
    as (Hd & _ & Hg).
  split; [ rewrite Hd; reflexivity | apply Hg ].
Defined.

Lemma unknown_dataset_not_found_witness :
  data_store !! "nope" = None /\
  delete_dataset "nope" data_store = (inl dataset_not_found, data_store).
Proof.
  assert (H : data_store !! "nope" = None) by (vm_compute; reflexivity).
  split; [ exact H | ].
  exact (proj1 (proj2 (unknown_dataset_not_found (K := no_kernels)
                         data_store "nope" H))).
Defined.

Lemma unknown_column_rejected_witness :
  aggregate_data (K := no_kernels)
    {| AggregateRequest.dataset_name := "sample";
       AggregateRequest.column := "height";
       AggregateRequest.operation := "sum" |} data_store
  = (inl (HTTPException 400 (Text "Column 'height' not found")), data_store).
Proof.
  exact (proj2 (unknown_column_rejected (K := no_kernels) data_store "sample"
                  "height" sample_frame sample_stored eq_refl) "sum").
Defined.

Lemma get_dataset_prefix_witness :
  exists r, get_dataset "sample" (given (Some 2)) data_store = (inr r, data_store) /\
    Fetched.data r = firstn 2 (to_dict_records sample_frame).
Proof.
  destruct (get_dataset_prefix data_store "sample" sample_frame 2 sample_stored
              ltac:(discriminate)) as (r & Hr & Hpos & _).
  exists r. split; [ exact Hr | ]. apply Hpos. reflexivity.
Defined.

Lemma filter_data_selects_rows_witness :
  exists mask,
    compress [true; false; false; true; false] (to_dict_records sample_frame)
    = compress mask (to_dict_records sample_frame).
Proof.
  destruct (filter_data_selects_rows (K := no_kernels) data_store
              {| FilterRequest.dataset_name := "sample";
                 FilterRequest.column := "city";
                 FilterRequest.operation := "eq";
                 FilterRequest.value := PyStr "New York" |}
              sample_frame
              {| Filtered.data :=
                   compress [true; false; false; true; false]
                     (to_dict_records sample_frame);
                 Filtered.total_rows := 2 |}
              sample_stored sample_frame_wf
              ltac:(vm_compute; reflexivity)) as (mask & Hm & _).
  exists mask. exact Hm.
Defined.

Lemma filter_missing_value_keeps_nothing_witness :
  filter_data (K := no_kernels)
    {| FilterRequest.dataset_name := "sample";
       FilterRequest.column := "age";
       FilterRequest.operation := "gt";
       FilterRequest.value := PyNone |} data_store
  = (inr {| Filtered.data := []; Filtered.total_rows := 0 |}, data_store).
Proof.
  apply (filter_missing_value_keeps_nothing (K := no_kernels) data_store
           "sample" "age" "gt" PyNone sample_frame sample_stored eq_refl eq_refl).
  simpl. auto.
Defined.

Lemma filter_eq_object_column_witness :
  exists mask,
    filter_data (K := no_kernels)
      {| FilterRequest.dataset_name := "sample";
         FilterRequest.column := "city";
         FilterRequest.operation := "eq";
         FilterRequest.value := PyStr "New York" |} data_store
    = (inr {| Filtered.data := compress mask (to_dict_records sample_frame);
              Filtered.total_rows :=
                Z.of_nat (length (List.filter (fun b : bool => b) mask)) |},
       data_store).
Proof.
  eexists.
  exact (filter_eq_object_column (K := no_kernels) data_store "sample" "city"
           (PyStr "New York") sample_frame
           [PyStr "New York"; PyStr "San Francisco"; PyStr "Los Angeles";
            PyStr "New York"; PyStr "Chicago"]
           sample_stored sample_frame_wf eq_refl eq_refl).
Defined.

Lemma filter_text_against_typed_column_witness :
  filter_data (K := no_kernels)
    {| FilterRequest.dataset_name := "sample";
       FilterRequest.column := "age";
       FilterRequest.operation := "eq";
       FilterRequest.value := PyStr "thirty" |} data_store
  = (inr {| Filtered.data := []; Filtered.total_rows := 0 |}, data_store).
Proof.
  exact (proj1 (filter_text_against_typed_column (K := no_kernels) data_store
                  "sample" "age" "thirty" sample_frame
                  (Int64Array [30; 25; 35; 28; 32])
                  sample_stored eq_refl ltac:(discriminate))).
Defined.

Lemma create_dataset_columns_witness :
  exists created df,
    create_dataset {| DataUpload.name := "ragged";
                      DataUpload.data := all_missing |} data_store
    = (inr created, <["ragged" := df]> data_store) /\
    Created.shape created = (2, Z.of_nat (length (Created.columns created))).
Proof.
  destruct (create_dataset_columns data_store "ragged" all_missing eq_refl)
    as (created & df & Hc & Hs & _).
  exists created, df. split; [ exact Hc | exact Hs ].
Defined.

Lemma missing_cell_stays_missing_witness :
  exists fetched v,
    to_dict_records
      {| nrows := 2;
         cols := [("a", Float64Array [nan; nan]); ("b", Int64Array [1; 2])] |}
    !! 1%nat = Some fetched /\
    dict_get "a" fetched = Some v /\ isna v = true.
Proof.
  apply (missing_cell_stays_missing all_missing _ 1%nat [("b", PyInt 2)] "a").
  - reflexivity.
  - reflexivity.
  - simpl. auto.
  - reflexivity.
Defined.

Lemma aggregate_all_missing_witness :
  let store :=
    <["m" := {| nrows := 2;
                cols := [("a", Float64Array [nan; nan]);
                         ("b", Int64Array [1; 2])] |}]> data_store in
  aggregate_data (K := no_kernels)
    {| AggregateRequest.dataset_name := "m";
       AggregateRequest.column := "a";
       AggregateRequest.operation := "max" |} store
  = (inr {| Aggregated.column := "a";
            Aggregated.operation := "max";
            Aggregated.result := None |}, store).
Proof.
  intros store.
  apply (aggregate_all_missing (K := no_kernels) store "m" "a" "max"
           {| nrows := 2;
              cols := [("a", Float64Array [nan; nan]); ("b", Int64Array [1; 2])] |}
           [nan; nan]).
  - apply lookup_insert_eq.
  - reflexivity.
  - reflexivity.
  - simpl. auto.
Defined.

Lemma aggregate_sum_int64_witness :
  aggregate_data (K := no_kernels)
    {| AggregateRequest.dataset_name := "sample";
       AggregateRequest.column := "age";
       AggregateRequest.operation := "sum" |} data_store
  = (inr {| Aggregated.column := "age";
            Aggregated.operation := "sum";
            Aggregated.result := Some (float_of_Z (Zsum [30; 25; 35; 28; 32])) |},
     data_store).
Proof.
  apply (aggregate_sum_int64 (K := no_kernels) data_store "sample" "age"
           sample_frame [30; 25; 35; 28; 32] sample_stored eq_refl).
  - vm_compute. split; discriminate.
  - vm_compute. reflexivity.
Defined.

Lemma aggregate_minmax_int64_witness :
  exists m, In m [30; 25; 35; 28; 32] /\
    aggregate_data (K := no_kernels)
      {| AggregateRequest.dataset_name := "sample";
         AggregateRequest.column := "age";
         AggregateRequest.operation := "min" |} data_store
    = (inr {| Aggregated.column := "age";
              Aggregated.operation := "min";
              Aggregated.result := Some (float_of_Z m) |}, data_store).
Proof.
  destruct (aggregate_minmax_int64 (K := no_kernels) data_store "sample" "age"
              sample_frame [30; 25; 35; 28; 32] false sample_stored eq_refl
              ltac:(discriminate) ltac:(vm_compute; reflexivity))
    as (m & Hin & _ & Hm).
  exists m. split; [ exact Hin | exact Hm ].
Defined.

Lemma list_datasets_entries_witness :
  exists created store' listing,
    create_dataset {| DataUpload.name := "t";
                      DataUpload.data := null_under_text |} data_store
    = (inr created, store') /\
    list_datasets store' = (inr listing, store') /\
    listing !! "t"
    = Some {| Listed.rows := 2;
              Listed.columns := Created.columns created;
              Listed.shape := Created.shape created |}.
Proof.
  exact (proj2 (list_datasets_entries data_store "t" null_under_text
                  {| nrows := 2;
                     cols := [("tag", ObjectArray [PyStr "x"; PyNone])] |}
                  eq_refl)).
Defined.

Lemma statistics_null_counts_witness :
  exists r,
    Stats.get_statistics (fun _ => inr tt) "sample" data_store
    = (inr r, data_store) /\
    Stats.lookup_count "age" (Stats.null_counts r) = Some 0.
Proof.
  pose proof (statistics_null_counts (fun _ => inr tt) data_store "sample"
                sample_frame sample_stored sample_frame_wf) as H.
  cbv beta iota in H. destruct H as (r & Hr & _ & Hcounts).
  exists r. split; [ exact Hr | ].
  destruct (Hcounts "age" (Int64Array [30; 25; 35; 28; 32]) eq_refl)
    as (present & missing & Hp & Hm & Hsum).
  injection Hp as <-. rewrite Hm. f_equal.
  change (len sample_frame) with 5 in Hsum.
  change (Z.of_nat (length (List.filter notna
            (tolist (Int64Array [30; 25; 35; 28; 32]))))) with 5 in Hsum.
  lia.
Defined.

Lemma filter_order_text_column_witness :
  filter_data (K := no_kernels)
    {| FilterRequest.dataset_name := "sample";
       FilterRequest.column := "name";
       FilterRequest.operation := "gt";
       FilterRequest.value := PyStr "C" |} data_store
  = (inr {| Filtered.data :=
              compress [false; false; true; true; true]
                (to_dict_records sample_frame);
            Filtered.total_rows := 3 |}, data_store).
Proof.
  exact (proj1 (filter_order_text_column (K := no_kernels) data_store "sample"
                  "name" "C" sample_frame
                  ["Alice"; "Bob"; "Charlie"; "Diana"; "Eve"]
                  sample_stored sample_frame_wf eq_refl)).
Defined.

Lemma create_then_delete_witness :
  snd (delete_dataset "t"
         (snd (create_dataset {| DataUpload.name := "t";
                                 DataUpload.data := null_under_text |}
                 data_store)))
  = data_store.
Proof.
  apply (create_then_delete data_store "t" null_under_text
           {| nrows := 2; cols := [("tag", ObjectArray [PyStr "x"; PyNone])] |}).
  - vm_compute. reflexivity.
  - reflexivity.
Defined.

Lemma create_last_wins_witness :
  snd (create_dataset {| DataUpload.name := "t";
                         DataUpload.data := null_under_text |}
         (snd (create_dataset {| DataUpload.name := "t";
                                 DataUpload.data := huge_integer |} data_store)))
  = snd (create_dataset {| DataUpload.name := "t";
                           DataUpload.data := null_under_text |} data_store).
Proof.
  exact (create_last_wins data_store "t" huge_integer null_under_text
           {| nrows := 2; cols := [("tag", ObjectArray [PyStr "x"; PyNone])] |}
           eq_refl).
Defined.
